(** * book_library.py: the load / validate / persist core of the book catalogue

    A shallow embedding of [src/book_library.py] (classes [Book] and
    [LibraryDatabase]) together with the properties of its specification.

    Conventions of the embedding.
    - A Python [str] is a [string]; a character is an [ascii], read as the
      code point of the same number, so the development covers text whose code
      points are below 256.  The character classes below are the interpreter's
      for that range.
    - A Python [int] is a [Z].  The interpreter's optional cap on the number
      of digits accepted by [int()] and [str()] is not modelled.
    - The backing file is an [option string]: [None] when the file does not
      exist, otherwise its text.  Opening, reading and writing never fail
      otherwise.
    - What the program shows on the console is a list of [message]s. *)

From Stdlib Require Import ZArith List String Ascii Bool Lia.
From Stdlib Require Import Sorted Permutation.
Import ListNotations.

Local Open Scope string_scope.
Local Open Scope Z_scope.

(** ** Characters and strings as the interpreter treats them *)

Module Py.

Definition LF : ascii := "010"%char.
Definition CR : ascii := "013"%char.

Definition code (c : ascii) : Z := Z.of_N (N_of_ascii c).

(** [str.isspace] on one character: what [str.strip()] removes. *)
Definition isspace (c : ascii) : bool :=
  let n := code c in
  ((9 <=? n) && (n <=? 13)) || ((28 <=? n) && (n <=? 32))
  || (n =? 133) || (n =? 160).

(** The blanks [int()] skips around a literal: the field separators
    28..31 are blanks for [strip] but not for [int]. *)
Definition int_space (c : ascii) : bool :=
  let n := code c in
  ((9 <=? n) && (n <=? 13)) || (n =? 32) || (n =? 133) || (n =? 160).

(** Decimal value of a character, for [int()]: only 0..9 below 256. *)
Definition digit_value (c : ascii) : option Z :=
  let n := code c in
  if (48 <=? n) && (n <=? 57) then Some (n - 48) else None.

(** [str.isdigit] on one character: the decimal digits and, below 256,
    the superscripts one, two and three. *)
Definition isdigit_char (c : ascii) : bool :=
  let n := code c in
  ((48 <=? n) && (n <=? 57)) || (n =? 178) || (n =? 179) || (n =? 185).

Fixpoint all_chars (p : ascii -> bool) (s : string) : bool :=
  match s with
  | EmptyString => true
  | String c r => p c && all_chars p r
  end.

(** [s.isdigit()]: false on the empty string. *)
Definition isdigit (s : string) : bool :=
  match s with
  | EmptyString => false
  | _ => all_chars isdigit_char s
  end.

(** [s.lstrip()], [s.rstrip()] and [s.strip()] without argument. *)
Fixpoint lstrip (s : string) : string :=
  match s with
  | String c r => if isspace c then lstrip r else s
  | EmptyString => EmptyString
  end.

Fixpoint rstrip (s : string) : string :=
  match s with
  | EmptyString => EmptyString
  | String c r =>
      match rstrip r with
      | EmptyString => if isspace c then EmptyString else String c EmptyString
      | r' => String c r'
      end
  end.

Definition strip (s : string) : string := rstrip (lstrip s).

(** [s.split(sep)] for a separator of one character: never empty. *)
Fixpoint split (sep : ascii) (s : string) : list string :=
  match s with
  | EmptyString => [EmptyString]
  | String c r =>
      if Ascii.eqb c sep then EmptyString :: split sep r
      else match split sep r with
           | h :: t => String c h :: t
           | [] => [String c EmptyString]
           end
  end.

(** [s.replace(old, "")] for [old] of one character: every occurrence goes. *)
Fixpoint replace_del (old : ascii) (s : string) : string :=
  match s with
  | EmptyString => EmptyString
  | String c r =>
      if Ascii.eqb c old then replace_del old r else String c (replace_del old r)
  end.

(** [s.startswith(p)]. *)
Definition startswith (s p : string) : bool := String.prefix p s.

(** [s[:n]] for [n >= 0]. *)
Definition take (n : nat) (s : string) : string := String.substring 0 n s.

(** [s[-1]], on a non-empty string. *)
Fixpoint last_char (s : string) : option ascii :=
  match s with
  | EmptyString => None
  | String c EmptyString => Some c
  | String _ r => last_char r
  end.

(** [s[:-1]]. *)
Fixpoint but_last (s : string) : string :=
  match s with
  | EmptyString => EmptyString
  | String _ EmptyString => EmptyString
  | String c r => String c (but_last r)
  end.

(** [c.upper() == "X"] for a character [c]. *)
Definition upper_is_X (c : ascii) : bool :=
  Ascii.eqb c "X"%char || Ascii.eqb c "x"%char.

(** *** [int(s)] on a string, base 10

    Blanks, an optional sign, then digits in which single underscores may
    stand between two digits, then blanks.  [None] is [ValueError]. *)

(** The digits after the first one; [us] tells that the previous character
    was an underscore. *)
Fixpoint int_digits (s : string) (acc : Z) (us : bool) : option (Z * string) :=
  match s with
  | EmptyString => if us then None else Some (acc, EmptyString)
  | String c r =>
      match digit_value c with
      | Some d => int_digits r (10 * acc + d) false
      | None =>
          if Ascii.eqb c "_"%char
          then (if us then None else int_digits r acc true)
          else (if us then None else Some (acc, s))
      end
  end.

Definition int_magnitude (s : string) : option (Z * string) :=
  match s with
  | EmptyString => None
  | String c r =>
      match digit_value c with
      | Some d => int_digits r d false
      | None => None
      end
  end.

Fixpoint skip_int_space (s : string) : string :=
  match s with
  | String c r => if int_space c then skip_int_space r else s
  | EmptyString => EmptyString
  end.

Definition int (s : string) : option Z :=
  let s1 := skip_int_space s in
  let '(sign, s2) :=
    match s1 with
    | String c r =>
        if Ascii.eqb c "+"%char then (1, r)
        else if Ascii.eqb c "-"%char then (-1, r)
        else (1, s1)
    | EmptyString => (1, s1)
    end in
  match int_magnitude s2 with
  | Some (v, rest) =>
      match skip_int_space rest with
      | EmptyString => Some (sign * v)
      | _ => None
      end
  | None => None
  end.

(** *** [str(n)] on an integer *)

Definition digit_char (d : Z) : ascii := ascii_of_N (Z.to_N (48 + d)).

(** The decimal digits of [n >= 0] put before [acc]; [fuel] bounds the
    number of digits. *)
Fixpoint digits_onto (fuel : nat) (n : Z) (acc : string) : string :=
  match fuel with
  | O => acc
  | S f =>
      let acc' := String (digit_char (n mod 10)) acc in
      if n <? 10 then acc' else digits_onto f (n / 10) acc'
  end.

Definition str_nonneg (n : Z) : string :=
  digits_onto (S (Z.to_nat (Z.log2 n))) n EmptyString.

Definition str (n : Z) : string :=
  if n <? 0 then String "-"%char (str_nonneg (- n)) else str_nonneg n.

(** *** Lists *)

(** [sorted(l, key=key)]: the stable sort by an integer key.  A stable sort
    has one result, so insertion from the right gives the interpreter's. *)
Section Sorted.
Context {A : Type} (key : A -> Z).

Fixpoint insert (x : A) (l : list A) : list A :=
  match l with
  | [] => [x]
  | y :: r => if key x <=? key y then x :: l else y :: insert x r
  end.

Fixpoint sorted (l : list A) : list A :=
  match l with
  | [] => []
  | x :: r => insert x (sorted r)
  end.

End Sorted.

(** [l[a:b]] with the interpreter's treatment of negative and overlong
    indices. *)
Definition slice_index (len i : Z) : Z :=
  if i <? 0 then Z.max 0 (i + len) else Z.min i len.

Definition slice {A : Type} (l : list A) (a b : Z) : list A :=
  let len := Z.of_nat (List.length l) in
  let a' := slice_index len a in
  let b' := slice_index len b in
  firstn (Z.to_nat (b' - a')) (skipn (Z.to_nat a') l).

(** Iterating over a text file: the lines with their terminator, which is
    always [LF] because the text layer turns CR LF and CR into LF.  A
    character that ends no line joins the first line of what follows. *)
Fixpoint readlines (s : string) : list string :=
  match s with
  | EmptyString => []
  | String c r =>
      if Ascii.eqb c LF then String LF EmptyString :: readlines r
      else if Ascii.eqb c CR then
        String LF EmptyString ::
          match r with
          | String c' r' => if Ascii.eqb c' LF then readlines r' else readlines r
          | EmptyString => []
          end
      else match readlines r with
           | l :: ls => String c l :: ls
           | [] => [String c EmptyString]
           end
  end.

End Py.

(** ** class Book *)

Record Book : Type := mkBook {
  title : string;
  author : string;
  isbn : string;
  year : Z
}.

(** The constructor receives the year as text (from a line of the file) or
    as an integer (from [add]); [int()] leaves an integer as it is. *)
Inductive year_arg : Type :=
| YearStr (s : string)
| YearInt (n : Z).

Definition int_of_year (y : year_arg) : option Z :=
  match y with
  | YearStr s => Py.int s
  | YearInt n => Some n
  end.

(** [Book.__init__]: [None] is the [ValueError] of [int(year)]. *)
Definition Book_init (t a i : string) (y : year_arg) : option Book :=
  match int_of_year y with
  | Some n => Some (mkBook t a i n)
  | None => None
  end.

(** [Book.to_file_format]. *)
Definition to_file_format (b : Book) : string :=
  title b ++ "/" ++ author b ++ "/" ++ isbn b ++ "/" ++ Py.str (year b).

(** ** class LibraryDatabase *)

(** Why a line of the file was refused: the fixed text of the field count
    check, or the text of the [ValueError] that [int()] raised on the fourth
    field (the interpreter's wording, which quotes the field). *)
Inductive reason : Type :=
| ReasonText (s : string)
| ReasonValueError (literal : string).

Definition invalid_format : reason :=
  ReasonText "Invalid format (expected 4 fields)".

(** An entry of [load_warnings]: line number, stripped line, reason. *)
Definition warning : Type := (Z * string * reason)%type.

Inductive isbn_kind : Type := ISBN10 | ISBN13.

Definition kind_name (k : isbn_kind) : string :=
  match k with
  | ISBN10 => "ISBN-10"
  | ISBN13 => "ISBN-13"
  end.

(** A row of the table that [list] prints: number, title, author, ISBN and
    year, the three texts cut to the width of their column. *)
Definition row : Type := (Z * string * string * string * Z)%type.

(** What [console.print] is called with. *)
Inductive message : Type :=
| ErrAllFieldsRequired
| ErrYearNotNumber
| ErrInvalidIsbn
| MsgValidIsbn (k : option isbn_kind)
| MsgBookAdded (t a : string) (y : Z)
| MsgNoBooks
| MsgTable (total_books page total_pages : Z) (rows : Datatypes.list row)
| MsgNavigation
| MsgValidation (enabled : bool).

Inductive exn : Type :=
| ZeroDivisionError
| ValueError.

Module LibraryDatabase.

(** The fields of the object, with [disk], the file named [filename]. *)
Record t : Type := mk {
  disk : option string;
  books : Datatypes.list Book;
  validate_isbn : bool;
  load_warnings : Datatypes.list warning
}.

(** A method: from the object before the call to the value returned (or
    the exception raised), the object after it and what was printed. *)
Record outcome (A : Type) : Type := mkOutcome {
  result : exn + A;
  after : t;
  printed : Datatypes.list message
}.
Arguments mkOutcome {A}.
Arguments result {A}.
Arguments after {A}.
Arguments printed {A}.

Definition M (A : Type) : Type := t -> outcome A.

Definition ret {A : Type} (a : A) : M A :=
  fun db => mkOutcome (inr a) db [].

Definition raise {A : Type} (e : exn) : M A :=
  fun db => mkOutcome (inl e) db [].

Definition bind {A B : Type} (m : M A) (k : A -> M B) : M B :=
  fun db =>
    let o := m db in
    match result o with
    | inl e => mkOutcome (inl e) (after o) (printed o)
    | inr a =>
        let o' := k a (after o) in
        mkOutcome (result o') (after o') (printed o ++ printed o')
    end.

Notation "x <- m ;; k" := (bind m (fun x => k))
  (at level 61, m at next level, right associativity).
Notation "m ;;; k" := (bind m (fun _ => k))
  (at level 61, right associativity).

Definition get_books : M (Datatypes.list Book) :=
  fun db => mkOutcome (inr (books db)) db [].

Definition get_validate_isbn : M bool :=
  fun db => mkOutcome (inr (validate_isbn db)) db [].

(** [self.books.append(b)]. *)
Definition books_append (b : Book) : M unit :=
  fun db =>
    mkOutcome (inr tt)
      (mk (disk db) (books db ++ [b]) (validate_isbn db) (load_warnings db)) [].

Definition set_load_warnings (w : Datatypes.list warning) : M unit :=
  fun db =>
    mkOutcome (inr tt) (mk (disk db) (books db) (validate_isbn db) w) [].

Definition set_validate_isbn (v : bool) : M unit :=
  fun db =>
    mkOutcome (inr tt) (mk (disk db) (books db) v (load_warnings db)) [].

(** [open(self.filename, "r")] and reading it: [None] is [FileNotFoundError]. *)
Definition read_file : M (option string) :=
  fun db => mkOutcome (inr (disk db)) db [].

(** [open(self.filename, "w")] and writing [s]: replaces the content. *)
Definition write_file (s : string) : M unit :=
  fun db =>
    mkOutcome (inr tt)
      (mk (Some s) (books db) (validate_isbn db) (load_warnings db)) [].

Definition print (m : message) : M unit :=
  fun db => mkOutcome (inr tt) db [m].

(** What [_save_to_file] writes: one line per book, in the order given. *)
Definition file_lines (bs : Datatypes.list Book) : Datatypes.list string :=
  map (fun b => to_file_format b ++ String Py.LF EmptyString) bs.

Definition file_text (bs : Datatypes.list Book) : string :=
  String.concat EmptyString (file_lines bs).

(** [_save_to_file]. *)
Definition _save_to_file : M unit :=
  bs <- get_books ;;
  let sorted_books := Py.sorted year bs in
  write_file (file_text sorted_books).

(** The body of the loop of [_load_from_file] for one line: a blank line
    does nothing, a line of four fields whose fourth is an integer appends a
    book, any other line appends to [invalid_entries]. *)
Definition load_line (line_num : Z) (line : string)
    (invalid_entries : Datatypes.list warning) : M (Datatypes.list warning) :=
  let stripped := Py.strip line in
  match stripped with
  | EmptyString => ret invalid_entries
  | _ =>
      match Py.split "/" stripped with
      | [p0; p1; p2; p3] =>
          match Book_init p0 p1 p2 (YearStr p3) with
          | Some book => books_append book ;;; ret invalid_entries
          | None =>
              ret (invalid_entries ++ [(line_num, stripped, ReasonValueError p3)])%list
          end
      | _ => ret (invalid_entries ++ [(line_num, stripped, invalid_format)])%list
      end
  end.

(** [for line_num, line in enumerate(f, start=...)]. *)
Fixpoint load_lines (lines : Datatypes.list string) (line_num : Z)
    (invalid_entries : Datatypes.list warning) : M (Datatypes.list warning) :=
  match lines with
  | [] => ret invalid_entries
  | line :: rest =>
      invalid_entries' <- load_line line_num line invalid_entries ;;
      load_lines rest (line_num + 1) invalid_entries'
  end.

(** [_load_from_file]; a missing file leaves the object as it is. *)
Definition _load_from_file : M unit :=
  f <- read_file ;;
  match f with
  | None => ret tt
  | Some text =>
      invalid_entries <- load_lines (Py.readlines text) 1 [] ;;
      set_load_warnings invalid_entries ;;;
      bs <- get_books ;;
      match bs with
      | [] => ret tt
      | _ => _save_to_file
      end
  end.

(** [LibraryDatabase(filename)] when the file named so holds [file]. *)
Definition init (file : option string) : outcome unit :=
  _load_from_file (mk file [] false []).

(** [_validate_isbn_format]. *)
Definition _validate_isbn_format (isbn : string) : bool * option isbn_kind :=
  let isbn_clean := Py.replace_del " " (Py.replace_del "-" isbn) in
  if (Nat.eqb (String.length isbn_clean) 10
      && (Py.isdigit (Py.but_last isbn_clean)
          && match Py.last_char isbn_clean with
             | Some c => Py.isdigit_char c || Py.upper_is_X c
             | None => false
             end))%bool
  then (true, Some ISBN10)
  else if (Nat.eqb (String.length isbn_clean) 13
           && (Py.isdigit isbn_clean
               && (Py.startswith isbn_clean "978"
                   || Py.startswith isbn_clean "979")))%bool
  then (true, Some ISBN13)
  else (false, None).

Definition is_empty (s : string) : bool :=
  match s with
  | EmptyString => true
  | _ => false
  end.

(** [add]; the four arguments are the texts the user typed. *)
Definition add (title author isbn year : string) : M unit :=
  if (is_empty title || is_empty author || is_empty isbn || is_empty year)%bool
  then print ErrAllFieldsRequired
  else
    match Py.int year with
    | None => print ErrYearNotNumber
    | Some year_int =>
        validate <- get_validate_isbn ;;
        proceed <-
          (if validate : bool
           then
             let '(is_valid, isbn_type) := _validate_isbn_format isbn in
             if is_valid : bool
             then print (MsgValidIsbn isbn_type) ;;; ret true
             else print ErrInvalidIsbn ;;; ret false
           else ret true) ;;
        if proceed : bool
        then
          match Book_init title author isbn (YearInt year_int) with
          | Some new_book =>
              books_append new_book ;;;
              _save_to_file ;;;
              print (MsgBookAdded title author year_int)
          | None => raise ValueError
          end
        else ret tt
    end.

(** The rows of the table for the books of a page, numbered from [i]. *)
Definition cut (width : nat) (s : string) : string :=
  if Nat.ltb width (String.length s) then Py.take width s else s.

Fixpoint table_rows (i : Z) (page_books : Datatypes.list Book) : Datatypes.list row :=
  match page_books with
  | [] => []
  | b :: r =>
      (i, cut 40 (title b), cut 30 (author b), cut 20 (isbn b), year b)
        :: table_rows (i + 1) r
  end.

(** [toggle_validation]. *)
Definition toggle_validation : M unit :=
  v <- get_validate_isbn ;;
  set_validate_isbn (negb v) ;;;
  v' <- get_validate_isbn ;;
  print (MsgValidation v').

(** [list]; [//] by zero raises. *)
Definition list (page page_size : Z) : M bool :=
  bs <- get_books ;;
  match bs with
  | [] => print MsgNoBooks ;;; ret false
  | _ =>
      let sorted_books := Py.sorted year bs in
      let total_books := Z.of_nat (List.length sorted_books) in
      if page_size =? 0 then raise ZeroDivisionError
      else
        let total_pages := (total_books + page_size - 1) / page_size in
        let page := Z.max 1 (Z.min page total_pages) in
        let start_idx := (page - 1) * page_size in
        let end_idx := Z.min (start_idx + page_size) total_books in
        let page_books := Py.slice sorted_books start_idx end_idx in
        print (MsgTable total_books page total_pages
                 (table_rows (start_idx + 1) page_books)) ;;;
        (if total_pages >? 1 then print MsgNavigation else ret tt) ;;;
        ret (total_pages >? 1)
  end.

End LibraryDatabase.

Module DB := LibraryDatabase.

(** ** Reading of a file, line by line

    What one line contributes, read off the loop of [_load_from_file]:
    [line_record] is the book it appends, [line_warning] the entry it adds
    to [invalid_entries].  [load_lines_spec] below shows that the loop
    computes exactly these. *)

Definition line_record (line : string) : option Book :=
  match Py.strip line with
  | EmptyString => None
  | stripped =>
      match Py.split "/" stripped with
      | [p0; p1; p2; p3] => Book_init p0 p1 p2 (YearStr p3)
      | _ => None
      end
  end.

Definition line_warning (line_num : Z) (line : string) : option warning :=
  match Py.strip line with
  | EmptyString => None
  | stripped =>
      match Py.split "/" stripped with
      | [p0; p1; p2; p3] =>
          match Py.int p3 with
          | Some _ => None
          | None => Some (line_num, stripped, ReasonValueError p3)
          end
      | _ => Some (line_num, stripped, invalid_format)
      end
  end.

Fixpoint records_of (lines : list string) : list Book :=
  match lines with
  | [] => []
  | l :: r =>
      match line_record l with
      | Some b => b :: records_of r
      | None => records_of r
      end
  end.

Fixpoint warnings_of (line_num : Z) (lines : list string) : list warning :=
  match lines with
  | [] => []
  | l :: r =>
      match line_warning line_num l with
      | Some w => w :: warnings_of (line_num + 1) r
      | None => warnings_of (line_num + 1) r
      end
  end.

(** The records that parse successfully from a text, in file order. *)
Definition parsed_records (text : string) : list Book :=
  records_of (Py.readlines text).

(** A stripped line is well formed when it has four fields of which the
    fourth is an integer. *)
Definition well_formed (stripped : string) : Prop :=
  exists p0 p1 p2 p3 n,
    Py.split "/" stripped = [p0; p1; p2; p3] /\ Py.int p3 = Some n.

(** Ascending by year, as the specification words it. *)
Definition ascending (bs : list Book) : Prop :=
  forall i a b,
    nth_error bs i = Some a -> nth_error bs (S i) = Some b -> year a <= year b.

(** The order of two elements by their sort key. *)
Definition key_le {A : Type} (key : A -> Z) (a b : A) : Prop := key a <= key b.

(** Characters that end no line, and texts made of them. *)
Definition eol_free_char (c : ascii) : bool :=
  negb (Ascii.eqb c Py.LF) && negb (Ascii.eqb c Py.CR).

Definition eol_free (s : string) : Prop := Py.all_chars eol_free_char s = true.

(** A line as the iteration over a file yields it: characters that end no
    line, then the terminator, which only the last line may lack. *)
Definition line_shape (l : string) : Prop :=
  exists body, eol_free body /\ (l = body ++ String Py.LF "" \/ l = body).

Definition sep_free (sep : ascii) (s : string) : Prop :=
  Py.all_chars (fun c => negb (Ascii.eqb c sep)) s = true.

Definition space_free (s : string) : Prop :=
  Py.all_chars (fun c => negb (Py.isspace c)) s = true.

Definition is_decimal (c : ascii) : bool :=
  match Py.digit_value c with
  | Some _ => true
  | None => false
  end.

(** A book whose line in the file reads back as the same book, without a
    warning. *)
Definition reloads (b : Book) : Prop :=
  eol_free (to_file_format b)
  /\ Py.strip (to_file_format b ++ String Py.LF "") = to_file_format b
  /\ line_record (to_file_format b ++ String Py.LF "") = Some b
  /\ forall n, line_warning n (to_file_format b ++ String Py.LF "") = None.

(** ** The shapes of an ISBN that the code tests, with the digits of
    [str.isdigit] *)

(** A text without the characters that [drop] marks. *)
Fixpoint remove_chars (drop : ascii -> bool) (s : string) : string :=
  match s with
  | EmptyString => EmptyString
  | String c r =>
      if drop c then remove_chars drop r else String c (remove_chars drop r)
  end.

Definition hyphen_or_space (c : ascii) : bool :=
  (Ascii.eqb c "-" || Ascii.eqb c " ")%bool.

(** The character of [c] at position [k] is a digit for [str.isdigit]. *)
Definition digit_at (c : string) (k : nat) : Prop :=
  exists ch, String.get k c = Some ch /\ Py.isdigit_char ch = true.

(** Ten characters: nine digits, then a digit or the letter X of
    either case. *)
Definition isbn10_shape (c : string) : Prop :=
  String.length c = 10%nat
  /\ (forall k, (k < 9)%nat -> digit_at c k)
  /\ (digit_at c 9
      \/ String.get 9 c = Some "X"%char \/ String.get 9 c = Some "x"%char).

(** Thirteen characters, all digits, beginning with 978 or 979. *)
Definition isbn13_shape (c : string) : Prop :=
  String.length c = 13%nat
  /\ (forall k, (k < 13)%nat -> digit_at c k)
  /\ (Py.take 3 c = "978" \/ Py.take 3 c = "979").

(** ** The interactive shell

    The functions of the module that drive the database from the answers of
    the user.  An answer is the text that [Prompt.ask] returns; the
    decorations of the console (blank lines, banners, the wait for Enter)
    are left out. *)



Module Shell.

(** What the shell prints itself, and what the database prints under it. *)
Inductive output : Type :=
| AddHeader
| AskTitle
| ErrTitleEmpty
| AskAuthor
| ErrAuthorEmpty
| AskIsbn
| ErrIsbnEmpty
| AskYear
| ErrYearEmpty
| FromDatabase (m : message).

(** [add_book_interactive] when the user would answer [title], [author],
    [isbn] and [year]: a question is put only if the answers before it
    were not empty.  The object after the call and what was shown. *)
Definition add_book_interactive (title author isbn year : string)
    (db : DB.t) : DB.t * list output :=
  if DB.is_empty title then (db, [AddHeader; AskTitle; ErrTitleEmpty])
  else if DB.is_empty author
  then (db, [AddHeader; AskTitle; AskAuthor; ErrAuthorEmpty])
  else if DB.is_empty isbn
  then (db, [AddHeader; AskTitle; AskAuthor; AskIsbn; ErrIsbnEmpty])
  else if DB.is_empty year
  then (db, [AddHeader; AskTitle; AskAuthor; AskIsbn; AskYear; ErrYearEmpty])
  else
    let o := DB.add title author isbn year db in
    (DB.after o,
     ([AddHeader; AskTitle; AskAuthor; AskIsbn; AskYear]
        ++ map FromDatabase (DB.printed o))%list).



End Shell.

(** ** Sessions

    The calls a program can make on the object once it is built. *)
Inductive call : Type :=
| CallAdd (title author isbn year : string)
| CallList (page page_size : Z)
| CallToggle.

Definition run_call (c : call) (db : DB.t) : DB.t :=
  match c with
  | CallAdd t a i y => DB.after (DB.add t a i y db)
  | CallList p ps => DB.after (DB.list p ps db)
  | CallToggle => DB.after (DB.toggle_validation db)
  end.

Definition run_calls (cs : list call) (db : DB.t) : DB.t :=
  fold_left (fun s c => run_call c s) cs db.

(** The object holds, when it has books, the file that [_save_to_file]
    writes from them. *)
Definition file_in_step (db : DB.t) : Prop :=
  DB.books db <> [] ->
  DB.disk db = Some (DB.file_text (Py.sorted year (DB.books db))).

(** ** Counting *)

Fixpoint count_char (c : ascii) (s : string) : nat :=
  match s with
  | EmptyString => O
  | String d r => if Ascii.eqb d c then S (count_char c r) else count_char c r
  end.

(** A line that is blank: nothing is left of it once stripped. *)
Definition is_blank (line : string) : bool := DB.is_empty (Py.strip line).


(** The fields of a record that can be written to a line and read back. *)
Definition clean_fields (t a i : string) : Prop :=
  sep_free "/" t /\ sep_free "/" a /\ sep_free "/" i
  /\ eol_free t /\ eol_free a /\ eol_free i
  /\ Py.lstrip t = t.

(** A call whose record, if it adds one, can be read back from its line. *)
Definition clean_call (c : call) : Prop :=
  match c with
  | CallAdd t a i _ => clean_fields t a i
  | _ => True
  end.




(** ** The shapes of an ISBN, in the words of the specification

    There a digit is one of the ten decimal digits. *)

Definition decimal_at (c : string) (k : nat) : Prop :=
  exists ch, String.get k c = Some ch /\ is_decimal ch = true.

Definition isbn10_digits (c : string) : Prop :=
  String.length c = 10%nat
  /\ (forall k, (k < 9)%nat -> decimal_at c k)
  /\ (decimal_at c 9
      \/ String.get 9 c = Some "X"%char \/ String.get 9 c = Some "x"%char).

Definition isbn13_digits (c : string) : Prop :=
  String.length c = 13%nat
  /\ (forall k, (k < 13)%nat -> decimal_at c k)
  /\ (Py.take 3 c = "978" \/ Py.take 3 c = "979").

(** A text of characters below 128. *)
Definition ascii_text (s : string) : Prop :=
  Py.all_chars (fun ch => Py.code ch <? 128) s = true.

(** ** The page of a listing, in the words of the specification *)



(** ** The sort *)

Section SortFacts.
Context {A : Type} (key : A -> Z).

Lemma insert_perm (x : A) (l : list A) :
  Permutation (x :: l) (Py.insert key x l).
Proof.
  induction l as [|y r IH]; simpl.
  - apply Permutation_refl.
  - destruct (key x <=? key y).
    + apply Permutation_refl.
    + eapply Permutation_trans; [apply perm_swap|].
      now apply perm_skip.
Qed.

Lemma sorted_perm (l : list A) : Permutation l (Py.sorted key l).
Proof.
  induction l as [|x r IH]; simpl.
  - constructor.
  - eapply Permutation_trans; [|apply insert_perm].
    now apply perm_skip.
Qed.


Lemma insert_sorted (x : A) (l : list A) :
  StronglySorted (key_le key) l -> StronglySorted (key_le key) (Py.insert key x l).
Proof.
  induction 1 as [|y r Hr IH Hy]; simpl.
  - repeat constructor.
  - destruct (key x <=? key y) eqn:E.
    + apply Z.leb_le in E.
      constructor; [now constructor|].
      constructor; [exact E|].
      eapply Forall_impl; [|exact Hy].
      intros b Hb. unfold key_le in *. lia.
    + apply Z.leb_gt in E.
      constructor; [exact IH|].
      eapply Permutation_Forall; [apply insert_perm|].
      constructor; [unfold key_le; lia|exact Hy].
Qed.

Lemma sorted_sorted (l : list A) : StronglySorted (key_le key) (Py.sorted key l).
Proof.
  induction l as [|x r IH]; simpl; [constructor|now apply insert_sorted].
Qed.

(** The sort is stable: the elements of one key keep their order. *)
Lemma insert_filter (k : Z) (x : A) (l : list A) :
  StronglySorted (key_le key) l ->
  filter (fun a => key a =? k) (Py.insert key x l)
  = filter (fun a => key a =? k) (x :: l).
Proof.
  induction 1 as [|y r Hr IH Hy]; [reflexivity|].
  cbn [Py.insert].
  destruct (key x <=? key y) eqn:E; [reflexivity|].
  apply Z.leb_gt in E.
  cbn [filter] in *. rewrite IH.
  destruct (key x =? k) eqn:Ex; [|reflexivity].
  destruct (key y =? k) eqn:Ey; [|reflexivity].
  apply Z.eqb_eq in Ex, Ey. lia.
Qed.

Lemma sorted_stable (k : Z) (l : list A) :
  filter (fun a => key a =? k) (Py.sorted key l)
  = filter (fun a => key a =? k) l.
Proof.
  induction l as [|x r IH]; [reflexivity|].
  cbn [Py.sorted]. rewrite insert_filter by apply sorted_sorted.
  cbn [filter]. now rewrite IH.
Qed.

End SortFacts.

Lemma strongly_sorted_ascending (bs : list Book) :
  StronglySorted (key_le year) bs -> ascending bs.
Proof.
  induction 1 as [|x r Hr IH Hx]; intros i a b Ha Hb.
  - now destruct i.
  - destruct i as [|i]; cbn in Ha, Hb.
    + injection Ha as <-.
      destruct r as [|y r']; [discriminate|].
      cbn in Hb. injection Hb as <-.
      now inversion Hx.
    + eapply IH; eassumption.
Qed.

Lemma sorted_ascending (bs : list Book) : ascending (Py.sorted year bs).
Proof. apply strongly_sorted_ascending, sorted_sorted. Qed.

(** ** The loop of [_load_from_file] *)

Lemma load_line_spec (n : Z) (line : string) (inv : list warning) (db : DB.t) :
  DB.load_line n line inv db =
  DB.mkOutcome
    (inr (inv ++ match line_warning n line with Some w => [w] | None => [] end)%list)
    (DB.mk (DB.disk db)
        (DB.books db ++ match line_record line with Some b => [b] | None => [] end)
        (DB.validate_isbn db) (DB.load_warnings db))
    [].
Proof.
  unfold DB.load_line, line_record, line_warning.
  destruct (Py.strip line) as [|c s] eqn:Es.
  - destruct db; cbn. now rewrite !app_nil_r.
  - destruct (Py.split "/" (String c s)) as [|p0 [|p1 [|p2 [|p3 [|p4 ps]]]]];
      try (destruct db; cbn; now rewrite !app_nil_r).
    unfold Book_init, int_of_year.
    destruct (Py.int p3) as [y|].
    + destruct db; cbn. now rewrite !app_nil_r.
    + destruct db; cbn. now rewrite !app_nil_r.
Qed.

Lemma load_lines_spec (lines : list string) :
  forall (n : Z) (inv : list warning) (db : DB.t),
    DB.load_lines lines n inv db =
    DB.mkOutcome
      (inr (inv ++ warnings_of n lines)%list)
      (DB.mk (DB.disk db) (DB.books db ++ records_of lines)
          (DB.validate_isbn db) (DB.load_warnings db))
      [].
Proof.
  induction lines as [|l r IH]; intros n inv db.
  - destruct db; cbn. now rewrite !app_nil_r.
  - cbn [DB.load_lines]. unfold DB.bind. rewrite load_line_spec.
    cbn [DB.result DB.after DB.printed]. rewrite IH. cbn.
    destruct (line_warning n l), (line_record l); cbn;
      rewrite <- ?app_assoc, ?app_nil_r; reflexivity.
Qed.

(** The object that [LibraryDatabase(filename)] builds. *)
Lemma init_missing :
  DB.init None = DB.mkOutcome (inr tt) (DB.mk None [] false []) [].
Proof. reflexivity. Qed.

Lemma init_spec (text : string) :
  DB.init (Some text) =
  DB.mkOutcome (inr tt)
    (DB.mk (Some match parsed_records text with
                 | [] => text
                 | bs => DB.file_text (Py.sorted year bs)
                 end)
        (parsed_records text) false
        (warnings_of 1 (Py.readlines text)))
    [].
Proof.
  unfold DB.init, DB._load_from_file, DB.bind, DB.read_file.
  cbn [DB.result DB.after DB.printed DB.disk].
  rewrite load_lines_spec. cbn.
  unfold parsed_records.
  destruct (records_of (Py.readlines text)); reflexivity.
Qed.

(** ** Characters *)

Lemma digit_char_value (d : Z) :
  0 <= d < 10 -> Py.digit_value (Py.digit_char d) = Some d.
Proof.
  intros H.
  assert (d = 0 \/ d = 1 \/ d = 2 \/ d = 3 \/ d = 4 \/ d = 5 \/ d = 6
          \/ d = 7 \/ d = 8 \/ d = 9) as C by lia.
  repeat (destruct C as [-> | C]; [reflexivity|]). now subst.
Qed.

Lemma decimal_plain (c : ascii) :
  is_decimal c = true ->
  Py.isspace c = false /\ Py.int_space c = false
  /\ eol_free_char c = true /\ Ascii.eqb c "/" = false
  /\ Ascii.eqb c "+" = false /\ Ascii.eqb c "-" = false
  /\ Ascii.eqb c "_" = false /\ Py.isdigit_char c = true.
Proof.
  destruct c as [[] [] [] [] [] [] [] []]; vm_compute; intros H;
    first [discriminate H | repeat split].
Qed.

(** On the characters below 128, [str.isdigit] accepts the ten decimal
    digits and nothing else. *)
Lemma isdigit_char_below_128 (c : ascii) :
  Py.code c < 128 -> Py.isdigit_char c = is_decimal c.
Proof.
  destruct c as [[] [] [] [] [] [] [] []]; vm_compute; intros H;
    first [reflexivity | discriminate H].
Qed.

(** ** Strings *)

Lemma all_chars_app (p : ascii -> bool) (s t : string) :
  Py.all_chars p (s ++ t) = Py.all_chars p s && Py.all_chars p t.
Proof.
  induction s as [|c s IH]; cbn; [reflexivity|].
  now rewrite IH, andb_assoc.
Qed.

Lemma all_chars_impl (p q : ascii -> bool) (s : string) :
  (forall c, p c = true -> q c = true) ->
  Py.all_chars p s = true -> Py.all_chars q s = true.
Proof.
  intros Hpq. induction s as [|c s IH]; cbn; [reflexivity|].
  intros H. apply andb_true_iff in H as [Hc Hs].
  now rewrite (Hpq _ Hc), IH.
Qed.

Lemma app_empty_r (s : string) : s ++ "" = s.
Proof. induction s as [|c s IH]; cbn; [reflexivity|now rewrite IH]. Qed.

Lemma app_assoc_str (s t u : string) : (s ++ t) ++ u = s ++ t ++ u.
Proof. induction s as [|c s IH]; cbn; [reflexivity|now rewrite IH]. Qed.

(** *** [strip] *)

Lemma lstrip_chars (p : ascii -> bool) (s : string) :
  Py.all_chars p s = true -> Py.all_chars p (Py.lstrip s) = true.
Proof.
  induction s as [|c s IH]; cbn; [reflexivity|].
  intros H. destruct (Py.isspace c).
  - apply andb_true_iff in H as [_ Hs]. now apply IH.
  - exact H.
Qed.

Lemma rstrip_chars (p : ascii -> bool) (s : string) :
  Py.all_chars p s = true -> Py.all_chars p (Py.rstrip s) = true.
Proof.
  induction s as [|c s IH]; cbn; [reflexivity|].
  intros H. apply andb_true_iff in H as [Hc Hs].
  specialize (IH Hs).
  destruct (Py.rstrip s) as [|c' s'].
  - destruct (Py.isspace c); cbn; [reflexivity|now rewrite Hc].
  - cbn in *. now rewrite Hc.
Qed.

Lemma strip_chars (p : ascii -> bool) (s : string) :
  Py.all_chars p s = true -> Py.all_chars p (Py.strip s) = true.
Proof. intros H. now apply rstrip_chars, lstrip_chars. Qed.

Lemma rstrip_snoc_space (s : string) (c : ascii) :
  Py.isspace c = true -> Py.rstrip (s ++ String c "") = Py.rstrip s.
Proof.
  intros Hc. induction s as [|d s IH]; cbn.
  - now rewrite Hc.
  - now rewrite IH.
Qed.

Lemma lstrip_snoc_space (s : string) (c : ascii) :
  Py.isspace c = true ->
  Py.lstrip (s ++ String c "") = Py.lstrip s ++ String c ""
  \/ (Py.lstrip (s ++ String c "") = "" /\ Py.lstrip s = "").
Proof.
  intros Hc. induction s as [|d s IH]; cbn.
  - rewrite Hc. now right.
  - destruct (Py.isspace d); [exact IH|now left].
Qed.

Lemma strip_snoc_space (s : string) (c : ascii) :
  Py.isspace c = true -> Py.strip (s ++ String c "") = Py.strip s.
Proof.
  intros Hc. unfold Py.strip.
  destruct (lstrip_snoc_space s c Hc) as [-> | [-> ->]].
  - now apply rstrip_snoc_space.
  - reflexivity.
Qed.

Lemma rstrip_space_free (s : string) : space_free s -> Py.rstrip s = s.
Proof.
  unfold space_free. induction s as [|c s IH]; cbn; [reflexivity|].
  intros H. apply andb_true_iff in H as [Hc Hs].
  rewrite (IH Hs). apply negb_true_iff in Hc. rewrite Hc.
  now destruct s.
Qed.

Lemma rstrip_app_kept (s t : string) :
  Py.rstrip t <> "" -> Py.rstrip (s ++ t) = s ++ Py.rstrip t.
Proof.
  intros Ht. induction s as [|c s IH]; cbn; [reflexivity|].
  rewrite IH. destruct (s ++ Py.rstrip t) as [|d u] eqn:E; [|reflexivity].
  destruct s; cbn in E; [contradiction|discriminate].
Qed.

Lemma lstrip_length (s : string) :
  (String.length (Py.lstrip s) <= String.length s)%nat.
Proof.
  induction s as [|c s IH]; cbn; [lia|].
  destruct (Py.isspace c); cbn; lia.
Qed.

Lemma lstrip_fixed_head (c : ascii) (s : string) :
  Py.lstrip (String c s) = String c s -> Py.isspace c = false.
Proof.
  cbn. destruct (Py.isspace c); [|reflexivity].
  intros H. pose proof (lstrip_length s) as L.
  rewrite H in L. cbn in L. lia.
Qed.

Lemma lstrip_idem (s : string) : Py.lstrip (Py.lstrip s) = Py.lstrip s.
Proof.
  induction s as [|c s IH]; cbn; [reflexivity|].
  destruct (Py.isspace c) eqn:E; [exact IH|].
  cbn. now rewrite E.
Qed.

Lemma rstrip_head (c : ascii) (s : string) :
  Py.isspace c = false ->
  Py.rstrip (String c s) = String c (Py.rstrip s).
Proof.
  intros Hc. cbn. rewrite Hc. now destruct (Py.rstrip s).
Qed.

Lemma lstrip_strip (s : string) : Py.lstrip (Py.strip s) = Py.strip s.
Proof.
  unfold Py.strip. destruct (Py.lstrip s) as [|c r] eqn:E; [reflexivity|].
  assert (Py.isspace c = false) as Hc.
  { apply (lstrip_fixed_head c r). rewrite <- E. apply lstrip_idem. }
  rewrite rstrip_head by exact Hc. cbn. now rewrite Hc.
Qed.

(** *** [split] and its inverse *)

Lemma split_nonempty (sep : ascii) (s : string) : Py.split sep s <> [].
Proof.
  destruct s as [|c s]; cbn; [discriminate|].
  destruct (Ascii.eqb c sep); [discriminate|].
  destruct (Py.split sep s); discriminate.
Qed.

Lemma concat_cons (sep h : string) (t : list string) :
  t <> [] -> String.concat sep (h :: t) = h ++ sep ++ String.concat sep t.
Proof. destruct t; [contradiction|reflexivity]. Qed.

Lemma concat_head (sep : string) (c : ascii) (h : string) (t : list string) :
  String.concat sep (String c h :: t) = String c (String.concat sep (h :: t)).
Proof. destruct t; reflexivity. Qed.

Lemma split_join (sep : ascii) (s : string) :
  String.concat (String sep "") (Py.split sep s) = s.
Proof.
  induction s as [|c s IH]; [reflexivity|].
  cbn [Py.split]. destruct (Ascii.eqb c sep) eqn:E.
  - apply Ascii.eqb_eq in E. subst c.
    rewrite concat_cons by apply split_nonempty.
    now rewrite IH.
  - pose proof (split_nonempty sep s) as N.
    destruct (Py.split sep s) as [|h t]; [contradiction|].
    now rewrite concat_head, IH.
Qed.

Lemma split_sep_free (sep : ascii) (s : string) :
  Forall (sep_free sep) (Py.split sep s).
Proof.
  induction s as [|c s IH]; cbn.
  - now repeat constructor.
  - destruct (Ascii.eqb c sep) eqn:E.
    + constructor; [reflexivity|exact IH].
    + destruct (Py.split sep s) as [|h t].
      * constructor; [unfold sep_free; cbn; now rewrite E|constructor].
      * inversion IH as [|? ? Hh Ht]; subst.
        constructor; [|exact Ht].
        unfold sep_free in *. cbn. now rewrite E, Hh.
Qed.

Lemma split_sep_free_one (sep : ascii) (s : string) :
  sep_free sep s -> Py.split sep s = [s].
Proof.
  unfold sep_free. induction s as [|c s IH]; cbn; [reflexivity|].
  intros H. apply andb_true_iff in H as [Hc Hs].
  apply negb_true_iff in Hc. rewrite Hc, (IH Hs). reflexivity.
Qed.

Lemma split_app (sep : ascii) (s t : string) :
  sep_free sep s ->
  Py.split sep (s ++ String sep t) = s :: Py.split sep t.
Proof.
  unfold sep_free. induction s as [|c s IH]; cbn.
  - intros _. now rewrite Ascii.eqb_refl.
  - intros H. apply andb_true_iff in H as [Hc Hs].
    apply negb_true_iff in Hc. rewrite Hc, (IH Hs). reflexivity.
Qed.

(** *** Lines of a text *)

Lemma readlines_shape (text : string) : Forall line_shape (Py.readlines text).
Proof.
  assert (line_shape (String Py.LF "")) as Hnl.
  { exists "". split; [reflexivity|now left]. }
  induction text as [|c r IH]; cbn [Py.readlines]; [constructor|].
  destruct (Ascii.eqb c Py.LF) eqn:E1; [now constructor|].
  destruct (Ascii.eqb c Py.CR) eqn:E2.
  - constructor; [exact Hnl|].
    destruct r as [|c' r']; [constructor|].
    destruct (Ascii.eqb c' Py.LF) eqn:E3; [|exact IH].
    cbn [Py.readlines] in IH. rewrite E3 in IH. now inversion IH.
  - assert (eol_free_char c = true) as Hc.
    { unfold eol_free_char. now rewrite E1, E2. }
    destruct (Py.readlines r) as [|l ls].
    + constructor; [|constructor].
      exists (String c ""). split; [|now right].
      unfold eol_free. cbn. now rewrite Hc.
    + inversion IH as [|? ? (body & Hb & Hl) Hls]; subst.
      constructor; [|exact Hls].
      exists (String c body). split.
      * unfold eol_free in *. cbn. now rewrite Hc, Hb.
      * destruct Hl as [-> | ->]; [now left|now right].
Qed.

Lemma readlines_line (body rest : string) :
  eol_free body ->
  Py.readlines (body ++ String Py.LF rest)
  = (body ++ String Py.LF "") :: Py.readlines rest.
Proof.
  unfold eol_free. induction body as [|c s IH]; intros H.
  - reflexivity.
  - cbn in H. apply andb_true_iff in H as [Hc Hs].
    unfold eol_free_char in Hc. apply andb_true_iff in Hc as [H1 H2].
    apply negb_true_iff in H1, H2.
    cbn [append Py.readlines]. rewrite H1, H2, (IH Hs). reflexivity.
Qed.

Lemma strip_line_eol_free (l : string) : line_shape l -> eol_free (Py.strip l).
Proof.
  intros (body & Hb & [-> | ->]).
  - rewrite strip_snoc_space by reflexivity. now apply strip_chars.
  - now apply strip_chars.
Qed.

(** *** [str] and [int] on integers *)

Lemma int_digits_one (d : Z) (rest : string) (a : Z) (us : bool) :
  0 <= d < 10 ->
  Py.int_digits (String (Py.digit_char d) rest) a us
  = Py.int_digits rest (10 * a + d) false.
Proof. intros H. cbn [Py.int_digits]. now rewrite digit_char_value. Qed.

Lemma length_app (s t : string) :
  String.length (s ++ t) = (String.length s + String.length t)%nat.
Proof. induction s as [|c s IH]; cbn; [reflexivity|now rewrite IH]. Qed.

Lemma digits_onto_S (f : nat) (n : Z) (acc : string) :
  Py.digits_onto (S f) n acc =
  if n <? 10 then String (Py.digit_char (n mod 10)) acc
  else Py.digits_onto f (n / 10) (String (Py.digit_char (n mod 10)) acc).
Proof. reflexivity. Qed.

Lemma digits_onto_spec (f : nat) :
  forall n acc,
    0 <= n < 10 ^ Z.of_nat (S f) ->
    exists ds,
      ds <> ""
      /\ Py.digits_onto (S f) n acc = ds ++ acc
      /\ Py.all_chars is_decimal ds = true
      /\ forall a us rest,
           Py.int_digits (ds ++ rest) a us
           = Py.int_digits rest (a * 10 ^ Z.of_nat (String.length ds) + n) false.
Proof.
  assert (forall n acc, 0 <= n < 10 ->
    exists ds,
      ds <> ""
      /\ String (Py.digit_char (n mod 10)) acc = ds ++ acc
      /\ Py.all_chars is_decimal ds = true
      /\ forall a us rest,
           Py.int_digits (ds ++ rest) a us
           = Py.int_digits rest (a * 10 ^ Z.of_nat (String.length ds) + n) false)
    as Small.
  { intros n acc Hn. rewrite Z.mod_small by exact Hn.
    exists (String (Py.digit_char n) ""). repeat split.
    - discriminate.
    - cbn. unfold is_decimal. now rewrite digit_char_value.
    - intros a us rest. cbn [append]. rewrite int_digits_one by exact Hn.
      f_equal. cbn [String.length]. change (Z.of_nat 1) with 1.
      rewrite Z.pow_1_r. lia. }
  induction f as [|f IH]; intros n acc Hn; rewrite digits_onto_S.
  - change (10 ^ Z.of_nat 1) with 10 in Hn.
    destruct (n <? 10) eqn:E; [|apply Z.ltb_ge in E; lia].
    now apply Small.
  - destruct (n <? 10) eqn:E.
    + apply Small. apply Z.ltb_lt in E. lia.
    + apply Z.ltb_ge in E.
      assert (0 <= n / 10 < 10 ^ Z.of_nat (S f)) as Hq.
      { split; [apply Z.div_pos; lia|].
        apply Z.div_lt_upper_bound; [lia|].
        replace (Z.of_nat (S (S f))) with (Z.succ (Z.of_nat (S f))) in Hn by lia.
        rewrite Z.pow_succ_r in Hn by lia. lia. }
      destruct (IH (n / 10) (String (Py.digit_char (n mod 10)) acc) Hq)
        as (ds & Hne & Heq & Hdec & Hval).
      exists (ds ++ String (Py.digit_char (n mod 10)) "").
      assert (0 <= n mod 10 < 10) as Hm by (apply Z.mod_pos_bound; lia).
      repeat split.
      * destruct ds; [contradiction|discriminate].
      * rewrite Heq, app_assoc_str. reflexivity.
      * rewrite all_chars_app, Hdec. cbn. unfold is_decimal.
        now rewrite digit_char_value.
      * intros a us rest. rewrite app_assoc_str. cbn [append].
        rewrite Hval, int_digits_one by exact Hm.
        f_equal. rewrite length_app. cbn [String.length].
        replace (Z.of_nat (String.length ds + 1)) with
          (Z.succ (Z.of_nat (String.length ds))) by lia.
        rewrite Z.pow_succ_r by lia.
        pose proof (Z.div_mod n 10 ltac:(lia)) as D. lia.
Qed.

Lemma str_nonneg_spec (n : Z) :
  0 <= n ->
  exists c ds,
    Py.str_nonneg n = String c ds
    /\ Py.all_chars is_decimal (String c ds) = true
    /\ Py.int_digits (String c ds) 0 false = Some (n, "").
Proof.
  intros Hn. unfold Py.str_nonneg.
  assert (0 <= n < 10 ^ Z.of_nat (S (Z.to_nat (Z.log2 n)))) as Hb.
  { split; [exact Hn|].
    destruct (Z.eq_dec n 0) as [-> | Hz]; [cbn; lia|].
    assert (0 < n) as Hp by lia.
    pose proof (Z.log2_spec n Hp) as [_ Hu].
    pose proof (Z.log2_nonneg n) as Hl.
    replace (Z.of_nat (S (Z.to_nat (Z.log2 n)))) with (Z.succ (Z.log2 n)) by lia.
    eapply Z.lt_le_trans; [exact Hu|].
    apply Z.pow_le_mono_l. lia. }
  destruct (digits_onto_spec _ n "" Hb) as (ds & Hne & Heq & Hdec & Hval).
  rewrite app_empty_r in Heq.
  destruct ds as [|c r]; [contradiction|].
  exists c, r. repeat split; [exact Heq|exact Hdec|].
  specialize (Hval 0 false ""). rewrite app_empty_r in Hval.
  rewrite Hval. cbn [Py.int_digits].
  now rewrite Z.mul_0_l, Z.add_0_l.
Qed.

Lemma int_of_decimals (c : ascii) (ds : string) (n : Z) :
  is_decimal c = true ->
  Py.int_digits (String c ds) 0 false = Some (n, "") ->
  Py.int (String c ds) = Some n
  /\ Py.int (String "-" (String c ds)) = Some (- n).
Proof.
  intros Hc Hv.
  destruct (decimal_plain c Hc) as (_ & Hs & _ & _ & Hplus & Hminus & _).
  assert (Py.int_magnitude (String c ds) = Some (n, "")) as Hm.
  { unfold Py.int_magnitude. cbn [Py.int_digits] in Hv.
    unfold is_decimal in Hc.
    destruct (Py.digit_value c) as [d|]; [|discriminate].
    now replace (10 * 0 + d) with d in Hv by lia. }
  split.
  - unfold Py.int. cbn [Py.skip_int_space]. rewrite Hs, Hplus, Hminus, Hm.
    cbn [Py.skip_int_space]. f_equal. lia.
  - unfold Py.int. cbn [Py.skip_int_space].
    change (Py.int_space "-") with false. cbn iota.
    change (Ascii.eqb "-" "+") with false.
    change (Ascii.eqb "-" "-") with true. cbn iota.
    rewrite Hm. cbn [Py.skip_int_space]. f_equal.
Qed.

(** [int(str(n)) == n]. *)
Lemma int_str (n : Z) : Py.int (Py.str n) = Some n.
Proof.
  unfold Py.str. destruct (n <? 0) eqn:E.
  - apply Z.ltb_lt in E.
    destruct (str_nonneg_spec (- n)) as (c & ds & -> & Hdec & Hv); [lia|].
    cbn in Hdec. apply andb_true_iff in Hdec as [Hc _].
    destruct (int_of_decimals c ds (- n) Hc Hv) as [_ ->].
    f_equal. lia.
  - apply Z.ltb_ge in E.
    destruct (str_nonneg_spec n E) as (c & ds & -> & Hdec & Hv).
    cbn in Hdec. apply andb_true_iff in Hdec as [Hc _].
    now destruct (int_of_decimals c ds n Hc Hv) as [-> _].
Qed.

(** The text of an integer: a possible minus sign, then decimal digits. *)
Lemma str_chars (p : ascii -> bool) (n : Z) :
  p "-"%char = true ->
  (forall c, is_decimal c = true -> p c = true) ->
  Py.all_chars p (Py.str n) = true.
Proof.
  intros Hminus Hdec. unfold Py.str.
  destruct (n <? 0) eqn:E.
  - apply Z.ltb_lt in E.
    destruct (str_nonneg_spec (- n)) as (c & ds & -> & Hd & _); [lia|].
    cbn [Py.all_chars]. rewrite Hminus.
    exact (all_chars_impl _ _ _ Hdec Hd).
  - apply Z.ltb_ge in E.
    destruct (str_nonneg_spec n E) as (c & ds & -> & Hd & _).
    exact (all_chars_impl _ _ _ Hdec Hd).
Qed.

Lemma str_nonempty (n : Z) : Py.str n <> "".
Proof.
  unfold Py.str. destruct (n <? 0) eqn:E; [discriminate|].
  apply Z.ltb_ge in E.
  destruct (str_nonneg_spec n E) as (c & ds & -> & _). discriminate.
Qed.

(** ** Lines that yield a record *)

Lemma line_record_inv (l : string) (b : Book) :
  line_record l = Some b ->
  exists t a i y n,
    Py.split "/" (Py.strip l) = [t; a; i; y]
    /\ Py.int y = Some n
    /\ b = mkBook t a i n
    /\ Py.strip l <> "".
Proof.
  unfold line_record. destruct (Py.strip l) as [|c s] eqn:Es; [discriminate|].
  destruct (Py.split "/" (String c s)) as [|t [|a [|i [|y [|z zs]]]]];
    try discriminate.
  unfold Book_init, int_of_year.
  destruct (Py.int y) as [n|] eqn:Ey; [|discriminate].
  intros [= <-]. exists t, a, i, y, n. repeat split; congruence.
Qed.

Lemma line_record_well_formed (l : string) :
  (exists b, line_record l = Some b) <-> well_formed (Py.strip l).
Proof.
  split.
  - intros (b & Hb).
    destruct (line_record_inv l b Hb) as (t & a & i & y & n & Hs & Hy & _).
    now exists t, a, i, y, n.
  - intros (t & a & i & y & n & Hs & Hy).
    unfold line_record.
    destruct (Py.strip l) as [|c s]; [discriminate Hs|].
    rewrite Hs. unfold Book_init, int_of_year. rewrite Hy. now eexists.
Qed.

Lemma to_file_format_eq (t a i : string) (n : Z) :
  to_file_format (mkBook t a i n)
  = t ++ String "/" (a ++ String "/" (i ++ String "/" (Py.str n))).
Proof. reflexivity. Qed.

Lemma lstrip_head (c : ascii) (s : string) :
  Py.isspace c = false -> Py.lstrip (String c s) = String c s.
Proof. intros H. cbn. now rewrite H. Qed.

Lemma parsed_reloads (l : string) (b : Book) :
  line_shape l -> line_record l = Some b -> reloads b.
Proof.
  intros Hl Hb.
  destruct (line_record_inv l b Hb) as (t & a & i & y & n & Hs & Hy & -> & Hne).
  pose proof (split_join "/" (Py.strip l)) as J. rewrite Hs in J.
  change (String.concat "/" [t; a; i; y])
    with (t ++ String "/" (a ++ String "/" (i ++ String "/" y))) in J.
  pose proof (split_sep_free "/" (Py.strip l)) as F. rewrite Hs in F.
  inversion F as [|? ? Ft F1]; subst. inversion F1 as [|? ? Fa F2]; subst.
  inversion F2 as [|? ? Fi _]; subst. clear F F1 F2.
  pose proof (strip_line_eol_free l Hl) as E. unfold eol_free in E.
  rewrite <- J in E.
  rewrite all_chars_app in E. apply andb_true_iff in E as [Et E].
  cbn [Py.all_chars] in E. apply andb_true_iff in E as [_ E].
  rewrite all_chars_app in E. apply andb_true_iff in E as [Ea E].
  cbn [Py.all_chars] in E. apply andb_true_iff in E as [_ E].
  rewrite all_chars_app in E. apply andb_true_iff in E as [Ei _].
  assert (eol_free (to_file_format (mkBook t a i n))) as Heol.
  { unfold eol_free. rewrite to_file_format_eq.
    rewrite all_chars_app, Et. cbn [Py.all_chars andb].
    change (eol_free_char "/") with true. cbn [andb].
    rewrite all_chars_app, Ea. cbn [Py.all_chars andb].
    change (eol_free_char "/") with true. cbn [andb].
    rewrite all_chars_app, Ei. cbn [Py.all_chars andb].
    change (eol_free_char "/") with true. cbn [andb].
    apply str_chars; [reflexivity|].
    intros c Hc. now destruct (decimal_plain c Hc) as (_ & _ & ? & _). }
  assert (space_free (Py.str n)) as Hsp.
  { apply str_chars; [reflexivity|].
    intros c Hc. destruct (decimal_plain c Hc) as (-> & _). reflexivity. }
  assert (sep_free "/" (Py.str n)) as Hsep.
  { apply str_chars; [reflexivity|].
    intros c Hc. destruct (decimal_plain c Hc) as (_ & _ & _ & -> & _).
    reflexivity. }
  assert (exists c r, to_file_format (mkBook t a i n) = String c r
                      /\ Py.isspace c = false) as (c & r & Hfmt & Hc).
  { rewrite to_file_format_eq. destruct t as [|c t'].
    - eexists _, _. split; [reflexivity|reflexivity].
    - eexists _, _. split; [reflexivity|].
      apply (lstrip_fixed_head c
               (t' ++ String "/" (a ++ String "/" (i ++ String "/" y)))).
      change (String c (t' ++ String "/" (a ++ String "/" (i ++ String "/" y))))
        with (String c t' ++ String "/" (a ++ String "/" (i ++ String "/" y))).
      rewrite J. apply lstrip_strip. }
  assert (Py.strip (to_file_format (mkBook t a i n) ++ String Py.LF "")
          = to_file_format (mkBook t a i n)) as Hstrip.
  { unfold Py.strip. rewrite Hfmt. cbn [append].
    rewrite lstrip_head by exact Hc.
    change (String c (r ++ String Py.LF "")) with (String c r ++ String Py.LF "").
    rewrite rstrip_snoc_space by reflexivity.
    rewrite <- Hfmt, to_file_format_eq.
    change (t ++ String "/" (a ++ String "/" (i ++ String "/" (Py.str n))))
      with (t ++ String "/" "" ++ a ++ String "/" "" ++ i ++ String "/" ""
              ++ Py.str n).
    rewrite <- !app_assoc_str.
    rewrite rstrip_app_kept; rewrite rstrip_space_free by exact Hsp;
      [reflexivity|apply str_nonempty]. }
  assert (Py.split "/" (to_file_format (mkBook t a i n))
          = [t; a; i; Py.str n]) as Hsplit.
  { rewrite to_file_format_eq.
    rewrite !split_app by assumption.
    now rewrite split_sep_free_one by exact Hsep. }
  repeat split.
  - exact Heol.
  - exact Hstrip.
  - unfold line_record. rewrite Hstrip.
    rewrite Hfmt at 1. rewrite <- Hfmt, Hsplit.
    unfold Book_init, int_of_year. now rewrite int_str.
  - intros k. unfold line_warning. rewrite Hstrip.
    rewrite Hfmt at 1. rewrite <- Hfmt, Hsplit. now rewrite int_str.
Qed.

(** ** The file that [_save_to_file] writes *)

Lemma file_text_cons (b : Book) (bs : list Book) :
  DB.file_text (b :: bs)
  = (to_file_format b ++ String Py.LF "") ++ DB.file_text bs.
Proof.
  unfold DB.file_text, DB.file_lines. cbn [map].
  destruct bs as [|b' bs']; cbn [map String.concat].
  - now rewrite app_empty_r.
  - reflexivity.
Qed.

Lemma readlines_file_text (bs : list Book) :
  Forall reloads bs -> Py.readlines (DB.file_text bs) = DB.file_lines bs.
Proof.
  induction 1 as [|b bs (Hb & _) _ IH]; [reflexivity|].
  rewrite file_text_cons, app_assoc_str. cbn [append].
  rewrite readlines_line by exact Hb.
  now rewrite IH.
Qed.

Lemma records_of_file_lines (bs : list Book) :
  Forall reloads bs -> records_of (DB.file_lines bs) = bs.
Proof.
  induction 1 as [|b bs (_ & _ & Hb & _) _ IH]; [reflexivity|].
  cbn [DB.file_lines map records_of]. rewrite Hb. f_equal. exact IH.
Qed.

Lemma warnings_of_file_lines (bs : list Book) :
  Forall reloads bs -> forall n, warnings_of n (DB.file_lines bs) = [].
Proof.
  induction 1 as [|b bs (_ & _ & _ & Hb) _ IH]; intros n; [reflexivity|].
  cbn [DB.file_lines map warnings_of]. rewrite Hb. apply IH.
Qed.

Lemma records_of_reloads (lines : list string) :
  Forall line_shape lines -> Forall reloads (records_of lines).
Proof.
  induction 1 as [|l r Hl _ IH]; cbn [records_of]; [constructor|].
  destruct (line_record l) as [b|] eqn:E; [|exact IH].
  constructor; [|exact IH]. exact (parsed_reloads l b Hl E).
Qed.

Lemma parsed_records_reload (text : string) :
  Forall reloads (parsed_records text).
Proof. apply records_of_reloads, readlines_shape. Qed.

Lemma sorted_fixed {A : Type} (key : A -> Z) (l : list A) :
  StronglySorted (key_le key) l -> Py.sorted key l = l.
Proof.
  induction 1 as [|x r Hr IH Hx]; [reflexivity|].
  cbn [Py.sorted]. rewrite IH.
  destruct r as [|y r']; [reflexivity|].
  cbn [Py.insert]. inversion Hx as [|? ? Hxy _]; subst.
  unfold key_le in Hxy. apply Z.leb_le in Hxy. now rewrite Hxy.
Qed.

Lemma sorted_idem {A : Type} (key : A -> Z) (l : list A) :
  Py.sorted key (Py.sorted key l) = Py.sorted key l.
Proof. apply sorted_fixed, sorted_sorted. Qed.

(** ** Warnings *)

Lemma line_warning_some (k : Z) (l : string) (w : warning) :
  line_warning k l = Some w ->
  Py.strip l <> "" /\ ~ well_formed (Py.strip l) /\ line_record l = None
  /\ exists r,
       w = (k, Py.strip l, r)
       /\ match Py.split "/" (Py.strip l) with
          | [_; _; _; p3] => r = ReasonValueError p3
          | _ => r = invalid_format
          end.
Proof.
  unfold line_warning, line_record, well_formed.
  destruct (Py.strip l) as [|c s] eqn:Es; [discriminate|].
  destruct (Py.split "/" (String c s)) as [|p0 [|p1 [|p2 [|p3 [|p4 ps]]]]];
    try (intros [= <-]; repeat split;
         [discriminate
         |intros (? & ? & ? & ? & ? & ? & _); discriminate
         |now eexists]).
  unfold Book_init, int_of_year.
  destruct (Py.int p3) as [n|] eqn:Ei; [discriminate|].
  intros [= <-]. repeat split.
  - discriminate.
  - intros (? & ? & ? & ? & ? & [= -> -> -> ->] & ?). congruence.
  - now eexists.
Qed.

Lemma line_warning_none (k : Z) (l : string) :
  line_warning k l = None <-> Py.strip l = "" \/ well_formed (Py.strip l).
Proof.
  split.
  - unfold line_warning, well_formed.
    destruct (Py.strip l) as [|c s]; [now left|].
    destruct (Py.split "/" (String c s)) as [|p0 [|p1 [|p2 [|p3 [|p4 ps]]]]];
      try discriminate.
    destruct (Py.int p3) as [n|] eqn:Ei; [|discriminate].
    intros _. right. now exists p0, p1, p2, p3, n.
  - intros [H | (p0 & p1 & p2 & p3 & n & Hs & Hi)]; unfold line_warning.
    + now rewrite H.
    + destruct (Py.strip l) as [|c s]; [reflexivity|].
      now rewrite Hs, Hi.
Qed.

Lemma warnings_of_In (lines : list string) :
  forall (start : Z) (w : warning),
    In w (warnings_of start lines) <->
    exists n l,
      nth_error lines n = Some l /\ line_warning (start + Z.of_nat n) l = Some w.
Proof.
  induction lines as [|l r IH]; intros start w; cbn [warnings_of].
  - split; [contradiction|]. intros ([|n] & l & H & _); discriminate.
  - assert (In w (warnings_of (start + 1) r) <->
            exists n l', nth_error (l :: r) (S n) = Some l'
                         /\ line_warning (start + Z.of_nat (S n)) l' = Some w) as T.
    { rewrite IH. split; intros (n & l' & Hn & Hw); exists n, l';
        (split; [exact Hn|]);
        now replace (start + Z.of_nat (S n)) with (start + 1 + Z.of_nat n) in * by lia. }
    destruct (line_warning start l) as [w0|] eqn:E.
    + cbn [In]. rewrite T. split.
      * intros [<- | (n & l' & H)].
        -- exists 0%nat, l. split; [reflexivity|].
           now rewrite Z.add_0_r.
        -- now exists (S n), l'.
      * intros ([|n] & l' & Hn & Hw).
        -- left. cbn in Hn. injection Hn as <-.
           rewrite Z.add_0_r in Hw. congruence.
        -- right. now exists n, l'.
    + rewrite T. split.
      * intros (n & l' & H). now exists (S n), l'.
      * intros ([|n] & l' & Hn & Hw).
        -- cbn in Hn. injection Hn as <-.
           rewrite Z.add_0_r in Hw. congruence.
        -- now exists n, l'.
Qed.

Lemma line_warning_number (k : Z) (l : string) (w : warning) :
  line_warning k l = Some w -> fst (fst w) = k.
Proof.
  intros H. destruct (line_warning_some k l w H) as (_ & _ & _ & r & -> & _).
  reflexivity.
Qed.

(** The warnings that carry the number of a line are those of that line. *)
Lemma warnings_of_line (lines : list string) (n : nat) (l : string) (w : warning) :
  nth_error lines n = Some l ->
  fst (fst w) = 1 + Z.of_nat n ->
  In w (warnings_of 1 lines) <-> line_warning (1 + Z.of_nat n) l = Some w.
Proof.
  intros Hn Hk. rewrite warnings_of_In. split.
  - intros (m & l' & Hm & Hw).
    pose proof (line_warning_number _ _ _ Hw) as K.
    assert (m = n) as -> by lia. congruence.
  - intros Hw. now exists n, l.
Qed.

Lemma records_of_In (lines : list string) (b : Book) :
  In b (records_of lines) <-> exists l, In l lines /\ line_record l = Some b.
Proof.
  induction lines as [|l r IH]; cbn [records_of].
  - split; [contradiction|now intros (? & [] & _)].
  - destruct (line_record l) as [b0|] eqn:E; cbn [In]; rewrite IH; split.
    + intros [<- | (l' & Hl & Hb)]; [exists l; auto|exists l'; auto].
    + intros (l' & [<- | Hl] & Hb); [left; congruence|right; now exists l'].
    + intros (l' & Hl & Hb). exists l'; auto.
    + intros (l' & [<- | Hl] & Hb); [congruence|now exists l'].
Qed.

Lemma lstrip_app_head (s : string) (c : ascii) (r : string) :
  Py.isspace c = false ->
  Py.lstrip (s ++ String c r) = Py.lstrip s ++ String c r.
Proof.
  intros Hc. induction s as [|d s IH]; cbn.
  - now rewrite Hc.
  - destruct (Py.isspace d); [exact IH|reflexivity].
Qed.

(** ** A line of four fields with the year as [str] prints it *)

Lemma str_space_free (n : Z) : space_free (Py.str n).
Proof.
  apply str_chars; [reflexivity|].
  intros c Hc. destruct (decimal_plain c Hc) as (-> & _). reflexivity.
Qed.

Lemma str_sep_free (n : Z) : sep_free "/" (Py.str n).
Proof.
  apply str_chars; [reflexivity|].
  intros c Hc. destruct (decimal_plain c Hc) as (_ & _ & _ & -> & _).
  reflexivity.
Qed.

Lemma strip_fields (t a i : string) (n : Z) :
  Py.strip (t ++ String "/" (a ++ String "/" (i ++ String "/" (Py.str n))))
  = Py.lstrip t ++ String "/" (a ++ String "/" (i ++ String "/" (Py.str n))).
Proof.
  unfold Py.strip. rewrite lstrip_app_head by reflexivity.
  change (Py.lstrip t ++ String "/" (a ++ String "/" (i ++ String "/" (Py.str n))))
    with (Py.lstrip t ++ String "/" "" ++ a ++ String "/" "" ++ i ++ String "/" ""
            ++ Py.str n).
  rewrite <- !app_assoc_str.
  rewrite rstrip_app_kept; rewrite rstrip_space_free by apply str_space_free;
    [reflexivity|apply str_nonempty].
Qed.

Lemma split_fields (t a i : string) (n : Z) :
  sep_free "/" t -> sep_free "/" a -> sep_free "/" i ->
  Py.split "/" (t ++ String "/" (a ++ String "/" (i ++ String "/" (Py.str n))))
  = [t; a; i; Py.str n].
Proof.
  intros Ht Ha Hi. rewrite !split_app by assumption.
  now rewrite split_sep_free_one by apply str_sep_free.
Qed.

Lemma line_record_fields (t a i : string) (n : Z) :
  sep_free "/" t -> sep_free "/" a -> sep_free "/" i ->
  line_record (t ++ String "/" (a ++ String "/" (i ++ String "/" (Py.str n))))
  = Some (mkBook (Py.lstrip t) a i n).
Proof.
  intros Ht Ha Hi. unfold line_record. rewrite strip_fields.
  assert (sep_free "/" (Py.lstrip t)) as Ht' by now apply lstrip_chars.
  pose proof (split_fields (Py.lstrip t) a i n Ht' Ha Hi) as S.
  destruct (Py.lstrip t ++ String "/" (a ++ String "/" (i ++ String "/" (Py.str n))))
    as [|c s] eqn:E.
  - destruct (Py.lstrip t); discriminate E.
  - rewrite S. unfold Book_init, int_of_year. now rewrite int_str.
Qed.

(** ** The outcomes of [add] *)

Lemma is_empty_spec (s : string) : DB.is_empty s = true <-> s = "".
Proof. destruct s; cbn; split; congruence. Qed.

Lemma any_empty_spec (t a i y : string) :
  (DB.is_empty t || DB.is_empty a || DB.is_empty i || DB.is_empty y)%bool = true
  <-> t = "" \/ a = "" \/ i = "" \/ y = "".
Proof.
  rewrite !orb_true_iff, !is_empty_spec. tauto.
Qed.

Lemma add_empty_field (db : DB.t) (t a i y : string) :
  t = "" \/ a = "" \/ i = "" \/ y = "" ->
  DB.add t a i y db = DB.mkOutcome (inr tt) db [ErrAllFieldsRequired].
Proof.
  intros H. apply any_empty_spec in H. unfold DB.add. now rewrite H.
Qed.

Lemma add_bad_year (db : DB.t) (t a i y : string) :
  ~ (t = "" \/ a = "" \/ i = "" \/ y = "") ->
  Py.int y = None ->
  DB.add t a i y db = DB.mkOutcome (inr tt) db [ErrYearNotNumber].
Proof.
  intros H Hy. rewrite <- any_empty_spec in H. apply not_true_is_false in H.
  unfold DB.add. now rewrite H, Hy.
Qed.

Lemma add_bad_isbn (db : DB.t) (t a i y : string) (n : Z) :
  ~ (t = "" \/ a = "" \/ i = "" \/ y = "") ->
  Py.int y = Some n ->
  DB.validate_isbn db = true ->
  fst (DB._validate_isbn_format i) = false ->
  DB.add t a i y db = DB.mkOutcome (inr tt) db [ErrInvalidIsbn].
Proof.
  intros H Hy Hv Hi. rewrite <- any_empty_spec in H. apply not_true_is_false in H.
  unfold DB.add. rewrite H, Hy.
  unfold DB.bind, DB.get_validate_isbn. cbn [DB.result DB.after DB.printed].
  rewrite Hv. destruct (DB._validate_isbn_format i) as [valid kind].
  cbn in Hi. subst valid. reflexivity.
Qed.

Lemma add_accepted (db : DB.t) (t a i y : string) (n : Z) :
  ~ (t = "" \/ a = "" \/ i = "" \/ y = "") ->
  Py.int y = Some n ->
  DB.validate_isbn db = false \/ fst (DB._validate_isbn_format i) = true ->
  DB.add t a i y db =
  DB.mkOutcome (inr tt)
    (DB.mk (Some (DB.file_text (Py.sorted year (DB.books db ++ [mkBook t a i n]))))
           (DB.books db ++ [mkBook t a i n])
           (DB.validate_isbn db) (DB.load_warnings db))
    ((if DB.validate_isbn db
      then [MsgValidIsbn (snd (DB._validate_isbn_format i))]
      else []) ++ [MsgBookAdded t a n]).
Proof.
  intros H Hy Hv. rewrite <- any_empty_spec in H. apply not_true_is_false in H.
  unfold DB.add. rewrite H, Hy.
  unfold DB.bind, DB.get_validate_isbn. cbn [DB.result DB.after DB.printed].
  destruct (DB.validate_isbn db) eqn:Ev.
  - destruct Hv as [Hv | Hv]; [discriminate Hv|].
    destruct (DB._validate_isbn_format i) as [valid kind].
    cbn in Hv. subst valid. cbn. now rewrite Ev.
  - cbn. now rewrite Ev.
Qed.

(** ** The check of the ISBN *)

Lemma replace_del_twice (s : string) :
  Py.replace_del " " (Py.replace_del "-" s) = remove_chars hyphen_or_space s.
Proof.
  unfold hyphen_or_space.
  induction s as [|c s IH]; cbn; [reflexivity|].
  destruct (Ascii.eqb c "-") eqn:E1; cbn; [exact IH|].
  destruct (Ascii.eqb c " "); cbn; now rewrite IH.
Qed.

Lemma all_chars_at (p : ascii -> bool) (c : string) :
  Py.all_chars p c = true <->
  forall k, (k < String.length c)%nat ->
            exists ch, String.get k c = Some ch /\ p ch = true.
Proof.
  induction c as [|a r IH]; cbn [Py.all_chars String.length].
  - split; [intros _ k Hk; lia|reflexivity].
  - rewrite andb_true_iff, IH. split.
    + intros [Ha Hr] [|k] Hk; cbn [String.get].
      * now exists a.
      * apply Hr. lia.
    + intros H. split.
      * destruct (H 0%nat ltac:(lia)) as (ch & [= <-] & Hp). exact Hp.
      * intros k Hk. apply (H (S k)). lia.
Qed.

Lemma but_last_at (p : ascii -> bool) (c : string) :
  Py.all_chars p (Py.but_last c) = true <->
  forall k, (S k < String.length c)%nat ->
            exists ch, String.get k c = Some ch /\ p ch = true.
Proof.
  induction c as [|a r IH].
  - cbn. split; [intros _ k Hk; lia|reflexivity].
  - destruct r as [|b r'].
    + cbn. split; [intros _ k Hk; lia|reflexivity].
    + change (Py.but_last (String a (String b r')))
        with (String a (Py.but_last (String b r'))).
      cbn [Py.all_chars]. rewrite andb_true_iff, IH. split.
      * intros [Ha Hr] [|k] Hk.
        -- now exists a.
        -- apply Hr. cbn [String.length] in *. lia.
      * intros H. split.
        -- destruct (H 0%nat ltac:(cbn; lia)) as (ch & [= <-] & Hp). exact Hp.
        -- intros k Hk. apply (H (S k)). cbn [String.length] in *. lia.
Qed.

Lemma last_char_at (c : string) :
  Py.last_char c = match String.length c with
                   | O => None
                   | S n => String.get n c
                   end.
Proof.
  induction c as [|a r IH]; [reflexivity|].
  destruct r as [|b r']; [reflexivity|].
  change (Py.last_char (String a (String b r')))
    with (Py.last_char (String b r')).
  rewrite IH. reflexivity.
Qed.

Lemma but_last_length (c : string) :
  String.length (Py.but_last c) = pred (String.length c).
Proof.
  induction c as [|a r IH]; [reflexivity|].
  destruct r as [|b r']; [reflexivity|].
  change (Py.but_last (String a (String b r')))
    with (String a (Py.but_last (String b r'))).
  cbn [String.length] in *. now rewrite IH.
Qed.

Lemma isdigit_all (s : string) :
  s <> "" -> Py.isdigit s = Py.all_chars Py.isdigit_char s.
Proof. destruct s; [contradiction|reflexivity]. Qed.

Lemma upper_is_X_spec (c : ascii) :
  Py.upper_is_X c = true <-> c = "X"%char \/ c = "x"%char.
Proof.
  unfold Py.upper_is_X. rewrite orb_true_iff, !Ascii.eqb_eq. tauto.
Qed.

(** The two tests of [_validate_isbn_format], on the cleaned text. *)
Lemma isbn10_test (c : string) :
  (Nat.eqb (String.length c) 10
   && (Py.isdigit (Py.but_last c)
       && match Py.last_char c with
          | Some x => Py.isdigit_char x || Py.upper_is_X x
          | None => false
          end))%bool = true
  <-> isbn10_shape c.
Proof.
  unfold isbn10_shape, digit_at.
  rewrite andb_true_iff, Nat.eqb_eq. split.
  - intros (Hl & H). apply andb_true_iff in H as [Hd Hx].
    split; [exact Hl|].
    rewrite isdigit_all in Hd
      by (intros E; apply (f_equal String.length) in E;
          rewrite but_last_length, Hl in E; discriminate E).
    rewrite but_last_at in Hd. rewrite last_char_at, Hl in Hx.
    split.
    + intros k Hk. apply Hd. lia.
    + destruct (String.get 9 c) as [x|]; [|discriminate Hx].
      apply orb_true_iff in Hx as [Hx | Hx].
      * left. now exists x.
      * apply upper_is_X_spec in Hx as [-> | ->]; auto.
  - intros (Hl & Hd & Hx). split; [exact Hl|].
    apply andb_true_iff. split.
    + rewrite isdigit_all
        by (intros E; apply (f_equal String.length) in E;
            rewrite but_last_length, Hl in E; discriminate E).
      apply but_last_at. intros k Hk. apply Hd. lia.
    + rewrite last_char_at, Hl.
      destruct Hx as [(x & -> & Hx) | [-> | ->]];
        [now rewrite Hx|reflexivity|reflexivity].
Qed.

Lemma isbn13_test (c : string) :
  (Nat.eqb (String.length c) 13
   && (Py.isdigit c
       && (Py.startswith c "978" || Py.startswith c "979")))%bool = true
  <-> isbn13_shape c.
Proof.
  unfold isbn13_shape, digit_at, Py.startswith, Py.take.
  rewrite andb_true_iff, Nat.eqb_eq. split.
  - intros (Hl & H). apply andb_true_iff in H as [Hd Hp].
    split; [exact Hl|].
    rewrite isdigit_all in Hd by (intros ->; discriminate Hl).
    rewrite all_chars_at, Hl in Hd. split; [exact Hd|].
    apply orb_true_iff in Hp as [Hp | Hp]; apply prefix_correct in Hp; auto.
  - intros (Hl & Hd & Hp). split; [exact Hl|].
    apply andb_true_iff. split.
    + rewrite isdigit_all by (intros ->; discriminate Hl).
      apply all_chars_at. now rewrite Hl.
    + apply orb_true_iff.
      destruct Hp as [Hp | Hp]; [left|right]; now apply prefix_correct.
Qed.

Lemma shapes_exclusive (c : string) : ~ (isbn10_shape c /\ isbn13_shape c).
Proof. intros [(H10 & _) (H13 & _)]. congruence. Qed.

Lemma validate_isbn_cases (s : string) :
  let c := Py.replace_del " " (Py.replace_del "-" s) in
  (isbn10_shape c /\ DB._validate_isbn_format s = (true, Some ISBN10))
  \/ (isbn13_shape c /\ DB._validate_isbn_format s = (true, Some ISBN13))
  \/ (~ isbn10_shape c /\ ~ isbn13_shape c
      /\ DB._validate_isbn_format s = (false, None)).
Proof.
  cbv zeta. unfold DB._validate_isbn_format.
  set (c := Py.replace_del " " (Py.replace_del "-" s)).
  pose proof (isbn10_test c) as T10. pose proof (isbn13_test c) as T13.
  destruct (Nat.eqb (String.length c) 10
            && (Py.isdigit (Py.but_last c)
                && match Py.last_char c with
                   | Some x => Py.isdigit_char x || Py.upper_is_X x
                   | None => false
                   end))%bool.
  - left. split; [now apply T10|reflexivity].
  - destruct (Nat.eqb (String.length c) 13
              && (Py.isdigit c
                  && (Py.startswith c "978" || Py.startswith c "979")))%bool.
    + right. left. split; [now apply T13|reflexivity].
    + right. right. repeat split.
      * intros H. apply T10 in H. discriminate H.
      * intros H. apply T13 in H. discriminate H.
Qed.

(** ** The pages of [list] *)







(** ** The rows of a table *)






(** ** Texts of plain characters *)

Lemma remove_chars_chars (p drop : ascii -> bool) (s : string) :
  Py.all_chars p s = true -> Py.all_chars p (remove_chars drop s) = true.
Proof.
  induction s as [|c r IH]; [reflexivity|]. cbn. intros H.
  apply andb_true_iff in H as [Hc Hr].
  destruct (drop c); cbn; [now apply IH|now rewrite Hc, IH].
Qed.

Lemma get_some_lt (c : string) :
  forall (k : nat) (ch : ascii),
    String.get k c = Some ch -> (k < String.length c)%nat.
Proof.
  induction c as [|x r IH]; intros k ch G; [discriminate G|].
  destruct k as [|k]; cbn [String.length]; [lia|].
  cbn in G. apply IH in G. lia.
Qed.

Lemma ascii_digit_at (c : string) (k : nat) :
  ascii_text c -> (digit_at c k <-> decimal_at c k).
Proof.
  unfold ascii_text, digit_at, decimal_at. intros A.
  assert (forall ch, String.get k c = Some ch ->
                     Py.isdigit_char ch = is_decimal ch) as E.
  { intros ch G.
    destruct (proj1 (all_chars_at _ c) A k (get_some_lt c k ch G))
      as (ch' & G' & B).
    rewrite G in G'. injection G' as <-.
    apply isdigit_char_below_128. now apply Z.ltb_lt. }
  split; intros (ch & G & D); exists ch; (split; [exact G|]).
  - now rewrite <- (E ch G).
  - now rewrite (E ch G).
Qed.

Lemma ascii_shapes (c : string) :
  ascii_text c ->
  (isbn10_shape c <-> isbn10_digits c) /\ (isbn13_shape c <-> isbn13_digits c).
Proof.
  intros A. unfold isbn10_shape, isbn10_digits, isbn13_shape, isbn13_digits.
  pose proof (fun k => ascii_digit_at c k A) as E.
  split; split; intros (L & D & X); (split; [exact L|]); split;
    try (intros k Hk; apply E; now apply D); try exact X.
  - destruct X as [X | X]; [left; now apply E|now right].
  - destruct X as [X | X]; [left; now apply E|now right].
Qed.

(** ** Fields of blanks *)

Lemma space_plain (c : ascii) :
  Py.isspace c = true ->
  Py.digit_value c = None /\ Ascii.eqb c "+" = false /\ Ascii.eqb c "-" = false
  /\ Py.isdigit_char c = false.
Proof.
  destruct c as [[] [] [] [] [] [] [] []]; vm_compute; intros H;
    first [discriminate H | repeat split].
Qed.

Lemma skip_int_space_chars (p : ascii -> bool) (s : string) :
  Py.all_chars p s = true -> Py.all_chars p (Py.skip_int_space s) = true.
Proof.
  induction s as [|c r IH]; [reflexivity|]. cbn. intros H.
  destruct (Py.int_space c); [|exact H].
  apply andb_true_iff in H as [_ Hr]. now apply IH.
Qed.

(** [int()] refuses a text of blanks. *)
Lemma int_of_blanks (y : string) :
  Py.all_chars Py.isspace y = true -> Py.int y = None.
Proof.
  intros H. apply (skip_int_space_chars Py.isspace) in H.
  unfold Py.int. destruct (Py.skip_int_space y) as [|c r]; [reflexivity|].
  cbn in H. apply andb_true_iff in H as [Hc _].
  destruct (space_plain c Hc) as (Hd & -> & -> & _).
  unfold Py.int_magnitude. now rewrite Hd.
Qed.

(** [_validate_isbn_format] refuses a text of blanks. *)
Lemma validate_of_blanks (i : string) :
  Py.all_chars Py.isspace i = true -> fst (DB._validate_isbn_format i) = false.
Proof.
  intros H.
  assert (Py.all_chars Py.isspace (Py.replace_del " " (Py.replace_del "-" i))
          = true) as B.
  { rewrite replace_del_twice. now apply remove_chars_chars. }
  assert (forall c, Py.all_chars Py.isspace c = true ->
                    (0 < String.length c)%nat -> ~ digit_at c 0) as N.
  { intros c Hc Hl (ch & G & D).
    destruct (proj1 (all_chars_at _ c) Hc 0%nat Hl) as (ch' & G' & S).
    rewrite G in G'. injection G' as <-.
    destruct (space_plain ch S) as (_ & _ & _ & E). congruence. }
  destruct (validate_isbn_cases i) as [[S _] | [[S _] | (_ & _ & ->)]];
    [| |reflexivity]; cbv zeta in S; exfalso.
  - destruct S as (L & D & _). apply (N _ B); [lia|]. apply D. lia.
  - destruct S as (L & D & _). apply (N _ B); [lia|]. apply D. lia.
Qed.

(** * The claims of the specification *)

(** ** Loading *)

(** C1, as stated, fails: after [load] the in-memory sequence is in the
    order of the file. A file whose two valid lines are in descending order
    of year leaves two records in memory with [records[0].year >
    records[1].year]. *)
Lemma load_memory_not_sorted :
  ~ (forall file : option string,
        ascending (DB.books (DB.after (DB.init file)))).
Proof.
  intros H.
  specialize (H (Some ("B/A/I/2020" ++ String Py.LF ("C/D/J/1990" ++ String Py.LF "")))
                0%nat _ _ eq_refl eq_refl).
  vm_compute in H. now apply H.
Qed.

(** C1, amended: for every backing file (present or missing), after [load]
    the in-memory sequence holds the successfully parsed records in the order
    of the file, and its copy sorted by year, the one [load] writes back to
    the file and [list] shows, is a rearrangement of it that is sorted
    ascending by year: for all i, [view[i].year <= view[i+1].year]. *)
Theorem load_sorted_view (file : option string) :
  let db := DB.after (DB.init file) in
  let view := Py.sorted year (DB.books db) in
  DB.books db = match file with
                | Some text => parsed_records text
                | None => []
                end
  /\ Permutation (DB.books db) view
  /\ ascending view.
Proof.
  cbv zeta. split; [|split].
  - destruct file as [text|]; [now rewrite init_spec|reflexivity].
  - apply sorted_perm.
  - apply sorted_ascending.
Qed.

(** C2: for every text of the backing file, when at least one record parses
    successfully [load] replaces the content of the file by the
    serializations of the parsed records sorted ascending by year, one per
    line, and when none parses the file keeps its content.  No invalid line
    survives the rewriting: the lines of the new content are exactly those
    serializations, each is well formed, and loading the new content again
    gives the same records, no warning and the same file. *)
Theorem load_rewrites_file (text : string) :
  let db := DB.after (DB.init (Some text)) in
  let kept := Py.sorted year (parsed_records text) in
  DB.books db = parsed_records text
  /\ DB.disk db = Some match parsed_records text with
                       | [] => text
                       | _ => DB.file_text kept
                       end
  /\ Permutation (parsed_records text) kept
  /\ ascending kept
  /\ DB.file_text kept
     = String.concat "" (map (fun b => to_file_format b ++ String Py.LF "") kept)
  /\ Py.readlines (DB.file_text kept)
     = map (fun b => to_file_format b ++ String Py.LF "") kept
  /\ Forall (fun l => well_formed (Py.strip l)) (Py.readlines (DB.file_text kept))
  /\ DB.after (DB.init (Some (DB.file_text kept)))
     = DB.mk (Some (DB.file_text kept)) kept false [].
Proof.
  cbv zeta. rewrite init_spec. cbn [DB.after DB.books DB.disk].
  assert (Forall reloads (Py.sorted year (parsed_records text))) as R.
  { eapply Permutation_Forall; [apply sorted_perm|apply parsed_records_reload]. }
  repeat split.
  - destruct (parsed_records text); reflexivity.
  - apply sorted_perm.
  - apply sorted_ascending.
  - now apply readlines_file_text.
  - rewrite readlines_file_text by exact R.
    unfold DB.file_lines. apply Forall_map.
    eapply Forall_impl; [|exact R].
    intros b (_ & _ & Hb & _). apply line_record_well_formed. now exists b.
  - rewrite init_spec. cbn [DB.after]. unfold parsed_records.
    rewrite readlines_file_text by exact R.
    rewrite records_of_file_lines by exact R.
    rewrite warnings_of_file_lines by exact R.
    pose proof (sorted_idem year (records_of (Py.readlines text))) as I.
    destruct (Py.sorted year (records_of (Py.readlines text)));
      [reflexivity|now rewrite I].
Qed.

(** C6, as stated, fails on blank lines: the only line of the file made of
    one line terminator does not split into four parts, whether the split
    is taken of the line as read or of the line stripped, and yet no warning
    is recorded for it.  And the text a warning carries is the stripped
    line, not the line as it stands in the file: the blanks around a refused
    line are lost. *)
Lemma blank_line_not_recorded :
  let claim (view : string -> string) :=
    forall (text : string) (n : nat) (line : string),
      nth_error (Py.readlines text) n = Some line ->
      ~ well_formed (view line) ->
      exists txt r,
        In (1 + Z.of_nat n, txt, r)
           (DB.load_warnings (DB.after (DB.init (Some text)))) in
  ~ claim Py.strip
  /\ ~ claim (fun line => line)
  /\ DB.load_warnings (DB.after (DB.init (Some "  x/y/z  ")))
     = [(1, "x/y/z", invalid_format)].
Proof.
  cbv zeta.
  assert (forall s, Py.split "/" s = [s] -> ~ well_formed s) as Bad.
  { intros s Hs (? & ? & ? & ? & ? & H & _). congruence. }
  split; [|split; [|reflexivity]]; intros H.
  - destruct (H (String Py.LF "") 0%nat (String Py.LF "") eq_refl)
      as (txt & r & []).
    now apply Bad.
  - destruct (H (String Py.LF "") 0%nat (String Py.LF "") eq_refl)
      as (txt & r & []).
    now apply Bad.
Qed.

(** C6, amended: for every line of the backing file that is not blank
    (not empty once stripped of surrounding whitespace), parsing splits
    the stripped line on '/' and the line is rejected (it yields no record,
    and a warning with its 1-based line number, its stripped text and a
    reason is recorded) iff the split does not yield exactly 4 parts or the
    4th part does not parse as an integer; the reason is "Invalid format
    (expected 4 fields)" in the first case and the error of the integer
    conversion in the second.  A blank line is skipped: no record, no
    warning, but it counts in the numbering.  In particular a file with one
    valid line and one 3-field line, in either order, loads exactly 1 record
    and produces exactly 1 warning with the number of the 3-field line and
    the reason "Invalid format (expected 4 fields)". *)
Theorem load_line_verdict (text : string) (n : nat) (line : string) :
  nth_error (Py.readlines text) n = Some line ->
  let db := DB.after (DB.init (Some text)) in
  let num := 1 + Z.of_nat n in
  let stripped := Py.strip line in
  (stripped <> "" ->
   ((exists r, In (num, stripped, r) (DB.load_warnings db))
    <-> ~ well_formed stripped))
  /\ (stripped = "" ->
      line_record line = None
      /\ forall w, In w (DB.load_warnings db) -> fst (fst w) <> num)
  /\ (forall w,
        In w (DB.load_warnings db) -> fst (fst w) = num ->
        exists r,
          w = (num, stripped, r)
          /\ match Py.split "/" stripped with
             | [_; _; _; p3] => r = ReasonValueError p3
             | _ => r = invalid_format
             end)
  /\ (line_record line = None <-> ~ well_formed stripped)
  /\ (forall b,
        In b (DB.books db) <->
        exists l, In l (Py.readlines text) /\ line_record l = Some b)
  /\ (forall text' good bad,
        well_formed (Py.strip good) ->
        List.length (Py.split "/" (Py.strip bad)) = 3%nat ->
        let db' := DB.after (DB.init (Some text')) in
        exists b,
          line_record good = Some b
          /\ (Py.readlines text' = [good; bad] ->
              DB.books db' = [b]
              /\ DB.load_warnings db' = [(2, Py.strip bad, invalid_format)])
          /\ (Py.readlines text' = [bad; good] ->
              DB.books db' = [b]
              /\ DB.load_warnings db' = [(1, Py.strip bad, invalid_format)])).
Proof.
  intros Hn. cbv zeta. rewrite init_spec. cbn [DB.after DB.books DB.load_warnings].
  assert (line_record line = None <-> ~ well_formed (Py.strip line)) as Hrec.
  { rewrite <- line_record_well_formed. split.
    - intros -> (b & Hb). discriminate.
    - intros H. destruct (line_record line) as [b|]; [|reflexivity].
      exfalso. apply H. now exists b. }
  repeat apply conj.
  - intros Hne. split.
    + intros (r & Hin).
      apply (warnings_of_line _ n line) in Hin; [|exact Hn|reflexivity].
      now destruct (line_warning_some _ _ _ Hin) as (_ & Hbad & _).
    + intros Hbad.
      destruct (line_warning (1 + Z.of_nat n) line) as [w|] eqn:E.
      * destruct (line_warning_some _ _ _ E) as (_ & _ & _ & r & -> & _).
        exists r. apply (warnings_of_line _ n line); [exact Hn|reflexivity|exact E].
      * apply line_warning_none in E as [E | E]; contradiction.
  - intros He. split.
    + apply Hrec. rewrite He. intros (? & ? & ? & ? & ? & H & _). discriminate H.
    + intros w Hin Hk.
      apply (warnings_of_line _ n line) in Hin; [|exact Hn|exact Hk].
      now destruct (line_warning_some _ _ _ Hin) as (Hne & _).
  - intros w Hin Hk.
    apply (warnings_of_line _ n line) in Hin; [|exact Hn|exact Hk].
    destruct (line_warning_some _ _ _ Hin) as (_ & _ & _ & r & -> & Hr).
    now exists r.
  - exact (proj1 Hrec).
  - exact (proj2 Hrec).
  - intros b. unfold parsed_records. apply records_of_In.
  - intros text' good bad Hgood Hbad.
    rewrite init_spec. cbn [DB.after DB.books DB.load_warnings].
    unfold parsed_records.
    apply line_record_well_formed in Hgood as (b & Hb).
    assert (forall k, line_warning k good = None) as Wg.
    { intros k. apply line_warning_none. right.
      apply line_record_well_formed. now exists b. }
    assert (line_record bad = None
            /\ forall k, line_warning k bad = Some (k, Py.strip bad, invalid_format))
      as (Rb & Wb).
    { unfold line_record, line_warning.
      destruct (Py.strip bad) as [|c s]; [discriminate Hbad|].
      destruct (Py.split "/" (String c s)) as [|p0 [|p1 [|p2 [|p3 ps]]]];
        try discriminate Hbad.
      now split. }
    exists b. split; [exact Hb|].
    split; intros ->; cbn [records_of warnings_of];
      now rewrite Hb, Rb, ?Wg, ?Wb, ?Wg.
Qed.

(** C6 at the file whose first line is valid and whose second line has three
    fields. *)
Lemma load_line_verdict_witness :
  let text := "Dune/Frank Herbert/0-441-17271-7/1965" ++ String Py.LF ("x/y/z" ++ String Py.LF "") in
  let db := DB.after (DB.init (Some text)) in
  nth_error (Py.readlines text) 1 = Some ("x/y/z" ++ String Py.LF "")
  /\ ((exists r, In (2, "x/y/z", r) (DB.load_warnings db)) <-> ~ well_formed "x/y/z")
  /\ DB.books db = [mkBook "Dune" "Frank Herbert" "0-441-17271-7" 1965]
  /\ DB.load_warnings db = [(2, "x/y/z", invalid_format)].
Proof.
  cbv zeta.
  pose proof (load_line_verdict
                ("Dune/Frank Herbert/0-441-17271-7/1965" ++ String Py.LF ("x/y/z" ++ String Py.LF ""))
                1 ("x/y/z" ++ String Py.LF "") eq_refl) as H.
  cbv zeta in H. destruct H as (H1 & _).
  split; [reflexivity|]. split; [|split; reflexivity].
  apply H1. discriminate.
Defined.

(** C7, as stated, fails: a year written with leading zeros parses as an
    integer but is printed back without them, and blanks before the first
    field are stripped by the parsing. *)
Lemma roundtrip_not_identity :
  let claim (line : string) :=
    forall t a i y n,
      Py.split "/" line = [t; a; i; y] -> Py.int y = Some n ->
      exists b, line_record line = Some b /\ to_file_format b = line in
  ~ claim "T/A/I/007" /\ ~ claim " T/A/I/7".
Proof.
  cbv zeta. split; intros H.
  - destruct (H "T" "A" "I" "007" 7 eq_refl eq_refl) as (b & Hb & Hf).
    vm_compute in Hb. injection Hb as <-. vm_compute in Hf. discriminate Hf.
  - destruct (H " T" "A" "I" "7" 7 eq_refl eq_refl) as (b & Hb & Hf).
    vm_compute in Hb. injection Hb as <-. vm_compute in Hf. discriminate Hf.
Qed.

(** C7, amended: for every line that splits on '/' into exactly 4 fields
    (which therefore contain no '/') whose 4th field is the decimal text of
    an integer as [str] prints it (a possible minus sign and digits without
    needless zeros), parsing succeeds and serializing the parsed record
    yields the line stripped of surrounding whitespace, hence the original
    line when it has none: [serialize(parse(line)) == line.strip()]. *)
Theorem parse_serialize_roundtrip (line t a i : string) (n : Z) :
  Py.split "/" line = [t; a; i; Py.str n] ->
  exists b,
    line_record line = Some b
    /\ b = mkBook (Py.lstrip t) a i n
    /\ to_file_format b = Py.strip line
    /\ (Py.strip line = line -> to_file_format b = line).
Proof.
  intros Hs.
  pose proof (split_sep_free "/" line) as F. rewrite Hs in F.
  inversion F as [|? ? Ft F1]; subst. inversion F1 as [|? ? Fa F2]; subst.
  inversion F2 as [|? ? Fi _]; subst. clear F F1 F2.
  pose proof (split_join "/" line) as J. rewrite Hs in J.
  change (String.concat "/" [t; a; i; Py.str n])
    with (t ++ String "/" (a ++ String "/" (i ++ String "/" (Py.str n)))) in J.
  exists (mkBook (Py.lstrip t) a i n).
  assert (to_file_format (mkBook (Py.lstrip t) a i n) = Py.strip line) as E.
  { rewrite <- J, strip_fields. reflexivity. }
  repeat split.
  - rewrite <- J. now apply line_record_fields.
  - exact E.
  - intros <-. exact E.
Qed.

(** C7 at a line of the catalogue. *)
Lemma parse_serialize_roundtrip_witness :
  Py.split "/" "Dune/Frank Herbert/0-441-17271-7/1965"
  = ["Dune"; "Frank Herbert"; "0-441-17271-7"; Py.str 1965]
  /\ exists b,
       line_record "Dune/Frank Herbert/0-441-17271-7/1965" = Some b
       /\ to_file_format b = "Dune/Frank Herbert/0-441-17271-7/1965".
Proof.
  split; [reflexivity|].
  destruct (parse_serialize_roundtrip
              "Dune/Frank Herbert/0-441-17271-7/1965"
              "Dune" "Frank Herbert" "0-441-17271-7" 1965 eq_refl)
    as (b & Hb & _ & _ & Hf).
  exists b. split; [exact Hb|]. apply Hf. reflexivity.
Defined.

(** ** Adding *)



(** C10, as stated, fails: the four fields are not empty, the year is one
    blank, and nothing is appended; [add] refuses the year as not a number. *)
Lemma blank_year_not_appended :
  ~ (forall (db : DB.t) (t a i y : string),
        t <> "" -> a <> "" -> i <> "" -> y <> "" ->
        exists b,
          DB.books (DB.after (DB.add t a i y db)) = (DB.books db ++ [b])%list).
Proof.
  intros H.
  destruct (H (DB.mk None [] false []) "T" "A" "I" " ") as (b & Hb);
    try discriminate.
Qed.

(** C10, amended: for every call to [add] in which every field is a
    non-empty string the emptiness check passes, also when a field consists
    of blanks only (a title of one space): such fields are not rejected as
    empty.  The record is appended as given and written to the file when
    the year parses as an integer and the ISBN check is off or passes; a
    year of blanks only is refused as not a number, and an ISBN of blanks
    only is refused when the validation is on, both with the object
    unchanged. *)
Theorem add_accepts_blank_fields (db : DB.t) (t a i y : string) :
  t <> "" -> a <> "" -> i <> "" -> y <> "" ->
  let o := DB.add t a i y db in
  ~ In ErrAllFieldsRequired (DB.printed o)
  /\ (forall n,
        Py.int y = Some n ->
        DB.validate_isbn db = false \/ fst (DB._validate_isbn_format i) = true ->
        DB.books (DB.after o) = (DB.books db ++ [mkBook t a i n])%list
        /\ DB.disk (DB.after o)
           = Some (DB.file_text (Py.sorted year (DB.books db ++ [mkBook t a i n]))))
  /\ (Py.all_chars Py.isspace y = true ->
      o = DB.mkOutcome (inr tt) db [ErrYearNotNumber])
  /\ (Py.all_chars Py.isspace i = true ->
      DB.validate_isbn db = true -> Py.int y <> None ->
      o = DB.mkOutcome (inr tt) db [ErrInvalidIsbn]).
Proof.
  intros Ht Ha Hi Hy. cbv zeta.
  assert (~ (t = "" \/ a = "" \/ i = "" \/ y = "")) as Hne by tauto.
  split; [|split; [|split]].
  - unfold DB.add.
    assert ((DB.is_empty t || DB.is_empty a || DB.is_empty i || DB.is_empty y)%bool
            = false) as ->.
    { destruct t, a, i, y; try reflexivity; congruence. }
    destruct (Py.int y) as [n|]; [|cbn; intuition discriminate].
    unfold DB.bind, DB.get_validate_isbn. cbn [DB.result DB.after DB.printed].
    destruct (DB.validate_isbn db);
      [destruct (DB._validate_isbn_format i) as [[] kind]|];
      cbn; intuition discriminate.
  - intros n Hn Hv.
    rewrite (add_accepted db t a i y n) by (assumption || tauto).
    now split.
  - intros Hb. apply add_bad_year; [exact Hne|now apply int_of_blanks].
  - intros Hb Hv Hn. destruct (Py.int y) as [n|] eqn:Ey; [|congruence].
    apply (add_bad_isbn db t a i y n); auto. now apply validate_of_blanks.
Qed.

(** C10 on a title of one blank. *)
Lemma add_accepts_blank_fields_witness :
  let db := DB.mk (Some "") [] false [] in
  let o := DB.add " " "Author" "123" "2020" db in
  DB.books (DB.after o) = [mkBook " " "Author" "123" 2020]
  /\ DB.disk (DB.after o)
     = Some (" /Author/123/2020" ++ String Py.LF "")
  /\ ~ In ErrAllFieldsRequired (DB.printed o).
Proof.
  cbv zeta.
  destruct (add_accepts_blank_fields (DB.mk (Some "") [] false [])
              " " "Author" "123" "2020")
    as (Hp & Hb & _); try discriminate.
  cbv zeta in Hp, Hb.
  destruct (Hb 2020 eq_refl (or_introl eq_refl)) as [H1 H2].
  split; [exact H1|]. split; [exact H2|exact Hp].
Defined.

(** ** Listing *)

(** C8: for every object and every page and page size, [list] leaves the
    object as it was: records and their order, file, validation flag and
    warnings; it sorts a copy. *)
Theorem list_leaves_state (db : DB.t) (page page_size : Z) :
  DB.after (DB.list page page_size db) = db.
Proof.
  unfold DB.list, DB.bind, DB.get_books. cbn [DB.result DB.after DB.printed].
  destruct (DB.books db) as [|b bs]; [reflexivity|].
  destruct (page_size =? 0); [reflexivity|].
  cbv zeta. cbn [DB.print DB.result DB.after DB.printed].
  match goal with |- context [?x >? 1] => destruct (x >? 1) end; reflexivity.
Qed.

(** ** The check of the ISBN *)

(** The results of [_validate_isbn_format] against the two shapes it
    tests, where a digit is a character that [str.isdigit] accepts. *)
Lemma validate_isbn_format_isdigit (s : string) :
  let c := Py.replace_del " " (Py.replace_del "-" s) in
  c = remove_chars hyphen_or_space s
  /\ (DB._validate_isbn_format s = (true, Some ISBN10) <-> isbn10_shape c)
  /\ (DB._validate_isbn_format s = (true, Some ISBN13) <-> isbn13_shape c)
  /\ (DB._validate_isbn_format s = (false, None)
      <-> ~ isbn10_shape c /\ ~ isbn13_shape c).
Proof.
  cbv zeta. split; [apply replace_del_twice|].
  pose proof (shapes_exclusive (Py.replace_del " " (Py.replace_del "-" s))) as X.
  destruct (validate_isbn_cases s) as [[H ->] | [[H ->] | (H10 & H13 & ->)]];
    (split; [|split]);
    split; intros G; try discriminate G; try tauto.
Qed.

(** C4 holds of the code only on texts of characters below 128.  The code
    tests the digits with [str.isdigit], which accepts more than the ten
    decimal digits: for the input of the superscript two followed by
    234567890 it returns (true, "ISBN-10"), though the first character of
    the cleaned text is no decimal digit.  For every input of characters
    below 128, [_validate_isbn_format] strips the hyphens and the spaces
    and returns (true, "ISBN-10") iff the cleaned text has length 10 with
    the first 9 characters decimal digits and the 10th a decimal digit or
    'X'/'x'; (true, "ISBN-13") iff it has length 13, all decimal digits,
    starting with "978" or "979"; and (false, none) otherwise; and
    "978-3-16-148410-0" gives (true, "ISBN-13"), "0-306-40615-2" gives
    (true, "ISBN-10"), "12345" gives (false, none). *)
Theorem validate_isbn_format_digits :
  DB._validate_isbn_format (String "178" "234567890") = (true, Some ISBN10)
  /\ ~ isbn10_digits (Py.replace_del " " (Py.replace_del "-" (String "178" "234567890")))
  /\ (forall s,
        ascii_text s ->
        let c := Py.replace_del " " (Py.replace_del "-" s) in
        c = remove_chars hyphen_or_space s
        /\ (DB._validate_isbn_format s = (true, Some ISBN10) <-> isbn10_digits c)
        /\ (DB._validate_isbn_format s = (true, Some ISBN13) <-> isbn13_digits c)
        /\ (DB._validate_isbn_format s = (false, None)
            <-> ~ isbn10_digits c /\ ~ isbn13_digits c))
  /\ kind_name ISBN10 = "ISBN-10"
  /\ kind_name ISBN13 = "ISBN-13"
  /\ DB._validate_isbn_format "978-3-16-148410-0" = (true, Some ISBN13)
  /\ DB._validate_isbn_format "0-306-40615-2" = (true, Some ISBN10)
  /\ DB._validate_isbn_format "12345" = (false, None).
Proof.
  split; [reflexivity|]. split.
  - intros (_ & D & _). destruct (D 0%nat ltac:(lia)) as (ch & G & E).
    cbn in G. injection G as <-. discriminate E.
  - split; [|repeat split].
    intros s A. cbv zeta.
    destruct (validate_isbn_format_isdigit s) as (C & H10 & H13 & H0).
    cbv zeta in C, H10, H13, H0.
    assert (ascii_text (Py.replace_del " " (Py.replace_del "-" s))) as A'.
    { rewrite C. now apply remove_chars_chars. }
    destruct (ascii_shapes _ A') as (E10 & E13).
    split; [exact C|]. rewrite H10, H13, H0, E10, E13. tauto.
Qed.

(** C9: for every input [s], [_validate_isbn_format] returns the kind none
    iff it returns valid = false; when valid = true the kind is ISBN-10 and
    the cleaned text has 10 characters, or ISBN-13 and it has 13; the two
    shapes never hold of the same input, and the two kinds have different
    names. *)
Theorem validate_isbn_kind_consistent (s : string) :
  let r := DB._validate_isbn_format s in
  let c := Py.replace_del " " (Py.replace_del "-" s) in
  (snd r = None <-> fst r = false)
  /\ (fst r = true ->
      (snd r = Some ISBN10 /\ String.length c = 10%nat)
      \/ (snd r = Some ISBN13 /\ String.length c = 13%nat))
  /\ ~ (isbn10_shape c /\ isbn13_shape c)
  /\ kind_name ISBN10 <> kind_name ISBN13.
Proof.
  cbv zeta. split; [|split; [|split; [apply shapes_exclusive|discriminate]]].
  - destruct (validate_isbn_cases s) as [[H ->] | [[H ->] | (H10 & H13 & ->)]];
      cbn; split; intros G; try discriminate G; reflexivity.
  - destruct (validate_isbn_cases s) as [[H ->] | [[H ->] | (H10 & H13 & ->)]];
      cbn; intros G; try discriminate G.
    + left. split; [reflexivity|apply H].
    + right. split; [reflexivity|apply H].
Qed.




(** * Further properties of the code *)

(** ** Saving *)

Lemma save_outcome (db : DB.t) :
  DB._save_to_file db =
  DB.mkOutcome (inr tt)
    (DB.mk (Some (DB.file_text (Py.sorted year (DB.books db))))
           (DB.books db) (DB.validate_isbn db) (DB.load_warnings db))
    [].
Proof. reflexivity. Qed.

(** [_save_to_file] writes the records of memory in ascending order of
    year and leaves the records of one year in the order in which memory
    holds them; memory, flag and warnings are untouched, and saving again
    writes the same file. *)
Theorem save_sorts_and_keeps_ties (db : DB.t) (k : Z) :
  let db' := DB.after (DB._save_to_file db) in
  let written := Py.sorted year (DB.books db) in
  DB.disk db' = Some (DB.file_text written)
  /\ Permutation (DB.books db) written
  /\ ascending written
  /\ filter (fun b => year b =? k) written
     = filter (fun b => year b =? k) (DB.books db)
  /\ DB.books db' = DB.books db
  /\ DB.validate_isbn db' = DB.validate_isbn db
  /\ DB.load_warnings db' = DB.load_warnings db
  /\ DB.after (DB._save_to_file db') = db'.
Proof.
  cbv zeta. rewrite !save_outcome. cbn [DB.after DB.disk DB.books
    DB.validate_isbn DB.load_warnings].
  repeat split.
  - apply sorted_perm.
  - apply sorted_ascending.
  - apply sorted_stable.
Qed.

(** ** Every line of the file is accounted for *)

Lemma line_verdict (k : Z) (l : string) :
  (exists b, line_record l = Some b /\ line_warning k l = None
             /\ is_blank l = false)
  \/ (exists w, line_record l = None /\ line_warning k l = Some w
                /\ is_blank l = false /\ fst (fst w) = k)
  \/ (line_record l = None /\ line_warning k l = None /\ is_blank l = true).
Proof.
  unfold line_record, line_warning, is_blank.
  destruct (Py.strip l) as [|c s]; [now right; right|].
  cbn [DB.is_empty].
  destruct (Py.split "/" (String c s)) as [|p0 [|p1 [|p2 [|p3 [|p4 ps]]]]];
    try (right; left; eexists; repeat split; reflexivity).
  unfold Book_init, int_of_year.
  destruct (Py.int p3) as [n|].
  - left. eexists. repeat split.
  - right. left. eexists. repeat split.
Qed.

Lemma lines_accounted (lines : list string) :
  forall start,
    List.length lines
    = (List.length (records_of lines) + List.length (warnings_of start lines)
       + List.length (filter is_blank lines))%nat.
Proof.
  induction lines as [|l r IH]; intros start; [reflexivity|].
  cbn [records_of warnings_of filter List.length].
  specialize (IH (start + 1)).
  destruct (line_verdict start l)
    as [(b & -> & -> & ->) | [(w & -> & -> & -> & _) | (-> & -> & ->)]];
    cbn [List.length]; lia.
Qed.

Lemma warnings_numbered (lines : list string) :
  forall start,
    StronglySorted Z.lt (map (fun w : warning => fst (fst w)) (warnings_of start lines))
    /\ Forall (fun w : warning =>
                 start <= fst (fst w) < start + Z.of_nat (List.length lines))
              (warnings_of start lines).
Proof.
  induction lines as [|l r IH]; intros start; cbn [warnings_of].
  - split; constructor.
  - destruct (IH (start + 1)) as [S F].
    assert (Forall (fun w : warning =>
              start < fst (fst w)
              /\ start <= fst (fst w) < start + Z.of_nat (List.length (l :: r)))
              (warnings_of (start + 1) r)) as F'.
    { eapply Forall_impl; [|exact F]. intros w H. cbn beta in *.
      cbn [List.length]. lia. }
    destruct (line_warning start l) as [w|] eqn:E.
    + pose proof (line_warning_number _ _ _ E) as K.
      cbn [map]. split.
      * constructor; [exact S|]. rewrite K. apply Forall_map.
        eapply Forall_impl; [|exact F']. intros w' H. cbn beta in *. lia.
      * constructor; [cbn [List.length]; lia|].
        eapply Forall_impl; [|exact F']. intros w' H. cbn beta in *. lia.
    + split; [exact S|].
      eapply Forall_impl; [|exact F']. intros w' H. cbn beta in *. lia.
Qed.

(** Loading accounts for every line of the file once: a line gives a
    record, or a warning, or is blank.  The warnings come in the order of
    the file, with line numbers that increase strictly and lie between 1
    and the number of lines. *)
Theorem load_accounts_for_lines (text : string) :
  let db := DB.after (DB.init (Some text)) in
  let lines := Py.readlines text in
  List.length lines
  = (List.length (DB.books db) + List.length (DB.load_warnings db)
     + List.length (filter is_blank lines))%nat
  /\ StronglySorted Z.lt
       (map (fun w : warning => fst (fst w)) (DB.load_warnings db))
  /\ Forall (fun w : warning =>
               1 <= fst (fst w) <= Z.of_nat (List.length lines))
            (DB.load_warnings db).
Proof.
  cbv zeta. rewrite init_spec. cbn [DB.after DB.books DB.load_warnings].
  unfold parsed_records. split; [apply lines_accounted|].
  destruct (warnings_numbered (Py.readlines text) 1) as [S F].
  split; [exact S|].
  eapply Forall_impl; [|exact F]. intros w H. cbn beta in *. lia.
Qed.

(** ** The line of a record, read back *)

Lemma split_length (sep : ascii) (s : string) :
  List.length (Py.split sep s) = S (count_char sep s).
Proof.
  induction s as [|c s IH]; [reflexivity|].
  cbn [Py.split count_char]. destruct (Ascii.eqb c sep).
  - cbn [List.length]. now rewrite IH.
  - destruct (Py.split sep s) as [|h t]; [discriminate IH|exact IH].
Qed.

Lemma count_app (c : ascii) (s t : string) :
  count_char c (s ++ t) = (count_char c s + count_char c t)%nat.
Proof.
  induction s as [|d s IH]; [reflexivity|].
  cbn [append count_char]. destruct (Ascii.eqb d c); lia.
Qed.

Lemma count_head (c : ascii) (s : string) :
  count_char c (String c s) = S (count_char c s).
Proof. cbn [count_char]. now rewrite Ascii.eqb_refl. Qed.

Lemma count_zero_iff (c : ascii) (s : string) :
  count_char c s = 0%nat <-> sep_free c s.
Proof.
  unfold sep_free. induction s as [|d s IH]; [now split|].
  cbn [count_char Py.all_chars]. destruct (Ascii.eqb d c); cbn [negb andb].
  - split; discriminate.
  - exact IH.
Qed.

Lemma count_lstrip (c : ascii) (s : string) :
  Py.isspace c = false -> count_char c (Py.lstrip s) = count_char c s.
Proof.
  intros Hc. induction s as [|d s IH]; [reflexivity|].
  cbn [Py.lstrip]. destruct (Py.isspace d) eqn:Ed; [|reflexivity].
  cbn [count_char]. destruct (Ascii.eqb d c) eqn:E; [|exact IH].
  apply Ascii.eqb_eq in E. congruence.
Qed.

Lemma line_record_strip (l l' : string) :
  Py.strip l = Py.strip l' -> line_record l = line_record l'.
Proof. unfold line_record. now intros ->. Qed.

Lemma strip_written_line (t a i : string) (n : Z) :
  Py.strip (to_file_format (mkBook t a i n) ++ String Py.LF "")
  = to_file_format (mkBook (Py.lstrip t) a i n).
Proof.
  rewrite strip_snoc_space by reflexivity.
  rewrite !to_file_format_eq. apply strip_fields.
Qed.

Lemma written_line_parts (t a i : string) (n : Z) :
  List.length (Py.split "/" (to_file_format (mkBook (Py.lstrip t) a i n)))
  = (4 + count_char "/" t + count_char "/" a + count_char "/" i)%nat.
Proof.
  rewrite split_length, to_file_format_eq.
  rewrite count_app, count_head, count_app, count_head, count_app, count_head.
  rewrite count_lstrip by reflexivity.
  pose proof (proj2 (count_zero_iff "/" (Py.str n)) (str_sep_free n)) as Z0.
  rewrite Z0. lia.
Qed.

Lemma written_line_clean (t a i : string) (n : Z) (k : Z) :
  sep_free "/" t -> sep_free "/" a -> sep_free "/" i ->
  line_record (to_file_format (mkBook t a i n) ++ String Py.LF "")
  = Some (mkBook (Py.lstrip t) a i n)
  /\ line_warning k (to_file_format (mkBook t a i n) ++ String Py.LF "") = None.
Proof.
  intros Ht Ha Hi.
  assert (line_record (to_file_format (mkBook t a i n) ++ String Py.LF "")
          = Some (mkBook (Py.lstrip t) a i n)) as R.
  { rewrite (line_record_strip _ (to_file_format (mkBook t a i n))).
    - rewrite to_file_format_eq. now apply line_record_fields.
    - now apply strip_snoc_space. }
  split; [exact R|].
  apply line_warning_none. right. apply line_record_well_formed. eauto.
Qed.

Lemma written_line_broken (t a i : string) (n : Z) (k : Z) :
  ~ (sep_free "/" t /\ sep_free "/" a /\ sep_free "/" i) ->
  line_record (to_file_format (mkBook t a i n) ++ String Py.LF "") = None
  /\ line_warning k (to_file_format (mkBook t a i n) ++ String Py.LF "")
     = Some (k, to_file_format (mkBook (Py.lstrip t) a i n), invalid_format).
Proof.
  intros Hbad.
  assert (List.length (Py.split "/" (to_file_format (mkBook (Py.lstrip t) a i n)))
          <> 4%nat) as L.
  { rewrite written_line_parts. intros E. apply Hbad.
    rewrite <- !count_zero_iff. lia. }
  unfold line_record, line_warning. rewrite strip_written_line.
  destruct (to_file_format (mkBook (Py.lstrip t) a i n)) as [|c s] eqn:E.
  - rewrite to_file_format_eq in E.
    destruct (Py.lstrip t); discriminate E.
  - destruct (Py.split "/" (String c s)) as [|p0 [|p1 [|p2 [|p3 [|p4 ps]]]]];
      try (now split); now contradiction L.
Qed.

(** ** Reloading what a session wrote *)

Lemma eol_free_format (t a i : string) (n : Z) :
  eol_free t -> eol_free a -> eol_free i ->
  eol_free (to_file_format (mkBook t a i n)).
Proof.
  unfold eol_free. intros Et Ea Ei. rewrite to_file_format_eq.
  rewrite all_chars_app, Et. cbn [Py.all_chars andb].
  change (eol_free_char "/") with true. cbn [andb].
  rewrite all_chars_app, Ea. cbn [Py.all_chars andb].
  change (eol_free_char "/") with true. cbn [andb].
  rewrite all_chars_app, Ei. cbn [Py.all_chars andb].
  change (eol_free_char "/") with true. cbn [andb].
  apply str_chars; [reflexivity|].
  intros c Hc. now destruct (decimal_plain c Hc) as (_ & _ & ? & _).
Qed.

Lemma clean_reloads (t a i : string) (n : Z) :
  clean_fields t a i -> reloads (mkBook t a i n).
Proof.
  intros (Ht & Ha & Hi & Et & Ea & Ei & Hl).
  destruct (written_line_clean t a i n 0 Ht Ha Hi) as [R _].
  rewrite Hl in R.
  repeat split.
  - now apply eol_free_format.
  - now rewrite strip_written_line, Hl.
  - exact R.
  - intros k. now destruct (written_line_clean t a i n k Ht Ha Hi) as [_ W].
Qed.

Lemma init_file_text (bs : list Book) :
  Forall reloads bs ->
  let text := DB.file_text (Py.sorted year bs) in
  DB.init (Some text)
  = DB.mkOutcome (inr tt) (DB.mk (Some text) (Py.sorted year bs) false []) [].
Proof.
  intros R. cbv zeta.
  assert (Forall reloads (Py.sorted year bs)) as R'.
  { eapply Permutation_Forall; [apply sorted_perm|exact R]. }
  rewrite init_spec. unfold parsed_records.
  rewrite readlines_file_text by exact R'.
  rewrite records_of_file_lines by exact R'.
  rewrite warnings_of_file_lines by exact R'.
  pose proof (sorted_idem year bs) as I.
  destruct (Py.sorted year bs); [reflexivity|now rewrite I].
Qed.

Lemma file_text_one (b : Book) :
  DB.file_text [b] = to_file_format b ++ String Py.LF "".
Proof. rewrite file_text_cons. apply app_empty_r. Qed.

(** The file that [_save_to_file] writes for one record whose title, author
    and ISBN hold no line terminator is one line.  Loading it gives a
    record exactly when none of the three fields holds a '/'; the record
    loaded then has the title without its leading blanks, so it is the
    record written iff the title has none.  When a field holds a '/' the
    line is refused: no record, and a warning for line 1 with the reason
    of the field count. *)
Theorem written_line_reads_back (b : Book) :
  eol_free (title b) -> eol_free (author b) -> eol_free (isbn b) ->
  let line := to_file_format b ++ String Py.LF "" in
  let again := DB.after (DB.init (Some (DB.file_text [b]))) in
  let slash_free :=
    sep_free "/" (title b) /\ sep_free "/" (author b) /\ sep_free "/" (isbn b) in
  Py.readlines (DB.file_text [b]) = [line]
  /\ (slash_free ->
      DB.books again
      = [mkBook (Py.lstrip (title b)) (author b) (isbn b) (year b)]
      /\ DB.load_warnings again = [])
  /\ (~ slash_free ->
      DB.books again = []
      /\ DB.load_warnings again = [(1, Py.strip line, invalid_format)])
  /\ (DB.books again = [b] <-> slash_free /\ Py.lstrip (title b) = title b).
Proof.
  destruct b as [t a i n]. cbn [title author isbn year].
  intros Et Ea Ei. cbv zeta.
  assert (Py.readlines (DB.file_text [mkBook t a i n])
          = [to_file_format (mkBook t a i n) ++ String Py.LF ""]) as L.
  { rewrite file_text_one. apply (readlines_line _ "").
    now apply eol_free_format. }
  rewrite init_spec. cbn [DB.after DB.books DB.load_warnings].
  unfold parsed_records. rewrite L. cbn [records_of warnings_of].
  split; [reflexivity|].
  assert ((sep_free "/" t /\ sep_free "/" a /\ sep_free "/" i)
          \/ ~ (sep_free "/" t /\ sep_free "/" a /\ sep_free "/" i)) as [Hs | Hs].
  { unfold sep_free.
    destruct (Py.all_chars (fun c => negb (Ascii.eqb c "/")) t),
             (Py.all_chars (fun c => negb (Ascii.eqb c "/")) a),
             (Py.all_chars (fun c => negb (Ascii.eqb c "/")) i);
      try (now left); right; intros (? & ? & ?); discriminate. }
  - destruct Hs as (Ht & Ha & Hi).
    destruct (written_line_clean t a i n 1 Ht Ha Hi) as [-> ->].
    split; [now intros _|]. split; [intros H; exfalso; now apply H|].
    split.
    + intros [= E]. now repeat split.
    + intros (_ & ->). reflexivity.
  - destruct (written_line_broken t a i n 1 Hs) as [-> ->].
    rewrite strip_written_line.
    split; [intros H; contradiction|]. split; [now intros _|].
    split; [discriminate|]. intros (H & _). contradiction.
Qed.

(** [written_line_reads_back] on a title with a '/'. *)
Lemma written_line_reads_back_witness :
  let b := mkBook "AC/DC" "A" "I" 1980 in
  let again := DB.after (DB.init (Some (DB.file_text [b]))) in
  eol_free (title b) /\ eol_free (author b) /\ eol_free (isbn b)
  /\ ~ (sep_free "/" (title b) /\ sep_free "/" (author b) /\ sep_free "/" (isbn b))
  /\ DB.books again = []
  /\ DB.load_warnings again = [(1, "AC/DC/A/I/1980", invalid_format)].
Proof.
  cbv zeta.
  assert (~ (sep_free "/" "AC/DC" /\ sep_free "/" "A" /\ sep_free "/" "I")) as N.
  { intros (H & _). discriminate H. }
  split; [reflexivity|]. split; [reflexivity|]. split; [reflexivity|].
  split; [exact N|].
  destruct (written_line_reads_back (mkBook "AC/DC" "A" "I" 1980)
              eq_refl eq_refl eq_refl) as (_ & _ & H & _).
  exact (H N).
Defined.

(** The first record added to an empty catalogue with a '/' in its title,
    author or ISBN is written to a line that the next start of the program
    refuses: the reload gives no record and one warning for line 1 with
    the reason of the field count, and leaves the file as it is. *)
Theorem fresh_add_with_slash_is_lost (db : DB.t) (t a i y : string) (n : Z) :
  DB.books db = [] ->
  ~ (t = "" \/ a = "" \/ i = "" \/ y = "") ->
  Py.int y = Some n ->
  DB.validate_isbn db = false \/ fst (DB._validate_isbn_format i) = true ->
  eol_free t -> eol_free a -> eol_free i ->
  ~ (sep_free "/" t /\ sep_free "/" a /\ sep_free "/" i) ->
  let db' := DB.after (DB.add t a i y db) in
  let again := DB.after (DB.init (DB.disk db')) in
  DB.books db' = [mkBook t a i n]
  /\ DB.disk db' = Some (to_file_format (mkBook t a i n) ++ String Py.LF "")
  /\ DB.books again = []
  /\ DB.load_warnings again
     = [(1, to_file_format (mkBook (Py.lstrip t) a i n), invalid_format)]
  /\ DB.disk again = DB.disk db'.
Proof.
  intros Hb Hne Hy Hv Et Ea Ei Hbad. cbv zeta.
  rewrite (add_accepted db t a i y n) by assumption.
  cbn [DB.after DB.books DB.disk]. rewrite Hb. cbn [app Py.sorted Py.insert].
  rewrite file_text_one.
  split; [reflexivity|]. split; [reflexivity|].
  rewrite init_spec. cbn [DB.after DB.books DB.disk DB.load_warnings].
  unfold parsed_records.
  assert (Py.readlines (to_file_format (mkBook t a i n) ++ String Py.LF "")
          = [to_file_format (mkBook t a i n) ++ String Py.LF ""]) as L.
  { apply (readlines_line _ ""). now apply eol_free_format. }
  rewrite L. cbn [records_of warnings_of].
  destruct (written_line_broken t a i n 1 Hbad) as [-> ->].
  now repeat split.
Qed.

(** [fresh_add_with_slash_is_lost] on the title "AC/DC". *)
Lemma fresh_add_with_slash_is_lost_witness :
  let db' := DB.after (DB.add "AC/DC" "A" "I" "1980" (DB.mk None [] false [])) in
  DB.books db' = [mkBook "AC/DC" "A" "I" 1980]
  /\ DB.books (DB.after (DB.init (DB.disk db'))) = []
  /\ DB.load_warnings (DB.after (DB.init (DB.disk db')))
     = [(1, "AC/DC/A/I/1980", invalid_format)].
Proof.
  cbv zeta.
  destruct (fresh_add_with_slash_is_lost (DB.mk None [] false [])
              "AC/DC" "A" "I" "1980" 1980)
    as (H1 & _ & H3 & H4 & _);
    try reflexivity.
  - intros [H | [H | [H | H]]]; discriminate H.
  - now left.
  - intros (H & _). discriminate H.
  - split; [exact H1|]. split; [exact H3|exact H4].
Defined.

(** *** The calls of a session *)

Lemma list_keeps_object (db : DB.t) (page page_size : Z) :
  DB.after (DB.list page page_size db) = db.
Proof.
  unfold DB.list, DB.bind, DB.get_books. cbn [DB.result DB.after DB.printed].
  destruct (DB.books db) as [|b bs]; [reflexivity|].
  destruct (page_size =? 0); [reflexivity|].
  cbv zeta. cbn [DB.print DB.result DB.after DB.printed].
  match goal with |- context [?x >? 1] => destruct (x >? 1) end; reflexivity.
Qed.

Lemma toggle_outcome (db : DB.t) :
  DB.toggle_validation db =
  DB.mkOutcome (inr tt)
    (DB.mk (DB.disk db) (DB.books db) (negb (DB.validate_isbn db))
           (DB.load_warnings db))
    [MsgValidation (negb (DB.validate_isbn db))].
Proof. reflexivity. Qed.

Lemma add_after_cases (db : DB.t) (t a i y : string) :
  DB.after (DB.add t a i y db) = db
  \/ exists n,
       Py.int y = Some n
       /\ DB.after (DB.add t a i y db)
          = DB.mk (Some (DB.file_text
                           (Py.sorted year (DB.books db ++ [mkBook t a i n]))))
                  (DB.books db ++ [mkBook t a i n])
                  (DB.validate_isbn db) (DB.load_warnings db).
Proof.
  destruct (DB.is_empty t || DB.is_empty a || DB.is_empty i || DB.is_empty y)%bool
    eqn:E.
  - left. apply any_empty_spec in E. now rewrite add_empty_field.
  - assert (~ (t = "" \/ a = "" \/ i = "" \/ y = "")) as Hne.
    { intros H. apply any_empty_spec in H. congruence. }
    destruct (Py.int y) as [n|] eqn:Ey; [|left; now rewrite add_bad_year].
    destruct (DB.validate_isbn db) eqn:Ev.
    + destruct (fst (DB._validate_isbn_format i)) eqn:Ei.
      * right. exists n. split; [reflexivity|].
        rewrite (add_accepted db t a i y n) by auto. cbn. now rewrite Ev.
      * left. now rewrite (add_bad_isbn db t a i y n).
    + right. exists n. split; [reflexivity|].
      rewrite (add_accepted db t a i y n) by auto. cbn. now rewrite Ev.
Qed.

Lemma run_calls_app (cs : list call) (c : call) (db : DB.t) :
  run_calls (cs ++ [c]) db = run_call c (run_calls cs db).
Proof. unfold run_calls. now rewrite fold_left_app. Qed.

Lemma init_file_in_step (file : option string) :
  let db := DB.after (DB.init file) in
  file_in_step db /\ (DB.books db = [] -> DB.disk db = file)
  /\ Forall reloads (DB.books db).
Proof.
  cbv zeta. destruct file as [text|].
  - rewrite init_spec. unfold file_in_step.
    cbn [DB.after DB.books DB.disk]. repeat split.
    + intros H. destruct (parsed_records text); [contradiction|reflexivity].
    + now intros ->.
    + apply parsed_records_reload.
  - rewrite init_missing. unfold file_in_step. cbn. repeat split; try constructor.
    contradiction.
Qed.

Lemma session_state (file : option string) (cs : list call) :
  let start := DB.after (DB.init file) in
  let db := run_calls cs start in
  file_in_step db
  /\ (DB.books db = [] -> DB.disk db = file)
  /\ DB.load_warnings db = DB.load_warnings start
  /\ (exists added, DB.books db = (DB.books start ++ added)%list)
  /\ (Forall clean_call cs -> Forall reloads (DB.books db)).
Proof.
  cbv zeta. induction cs as [|c cs IH] using rev_ind.
  - destruct (init_file_in_step file) as (S & E & R). cbv zeta in S, E, R.
    cbn [run_calls fold_left].
    repeat split; [exact S|exact E| |now intros _].
    exists []. now rewrite app_nil_r.
  - rewrite run_calls_app.
    destruct IH as (S & E & W & (added & P) & R).
    set (db := run_calls cs (DB.after (DB.init file))) in *.
    assert (Forall clean_call (cs ++ [c]) ->
            Forall clean_call cs /\ clean_call c) as Split.
    { intros H. apply Forall_app in H as [H1 H2]. now inversion H2. }
    destruct c as [t a i y|p ps|]; cbn [run_call].
    + destruct (add_after_cases db t a i y) as [-> | (n & Hy & ->)].
      * repeat split; [exact S|exact E|exact W|now exists added|].
        intros H. apply R. now apply Split.
      * cbn [DB.books DB.disk DB.load_warnings]. unfold file_in_step.
        cbn [DB.books DB.disk]. repeat split.
        -- intros H. now destruct (DB.books db).
        -- exact W.
        -- exists (added ++ [mkBook t a i n])%list. now rewrite P, app_assoc.
        -- intros H. apply Split in H as [H1 H2].
           apply Forall_app. split; [now apply R|].
           constructor; [|constructor]. now apply clean_reloads.
    + rewrite list_keeps_object.
      repeat split; [exact S|exact E|exact W|now exists added|].
      intros H. apply R. now apply Split.
    + rewrite toggle_outcome. cbn [DB.after DB.books DB.disk DB.load_warnings].
      repeat split; [exact S|exact E|exact W|now exists added|].
      intros H. apply R. now apply Split.
Qed.

(** Whatever the file at the start and whatever calls to [add], [list] and
    [toggle_validation] follow the construction: as soon as memory holds a
    record the file holds the sorted lines of memory, and as long as it
    holds none the file is as it was found; the warnings are those of the
    load; and the records of the load stay in memory, in their place,
    before the added ones. *)
Theorem session_invariants (file : option string) (cs : list call) :
  let start := DB.after (DB.init file) in
  let db := run_calls cs start in
  match DB.books db with
  | [] => DB.disk db = file
  | _ => DB.disk db = Some (DB.file_text (Py.sorted year (DB.books db)))
  end
  /\ DB.load_warnings db = DB.load_warnings start
  /\ exists added, DB.books db = (DB.books start ++ added)%list.
Proof.
  destruct (session_state file cs) as (S & E & W & P & _). cbv zeta in *.
  split; [|split; [exact W|exact P]].
  unfold file_in_step in S.
  destruct (DB.books (run_calls cs (DB.after (DB.init file)))) as [|b bs].
  - now apply E.
  - now apply S.
Qed.

(** When every record added in a session has fields without '/', without
    line terminators and a title without leading blanks, the file the
    session leaves reads back as the records of memory sorted by year;
    and when there is a record the reload gives no warning and rewrites
    the file to the same text. *)
Theorem session_reloads (file : option string) (cs : list call) :
  Forall clean_call cs ->
  let db := run_calls cs (DB.after (DB.init file)) in
  let again := DB.after (DB.init (DB.disk db)) in
  DB.books again = Py.sorted year (DB.books db)
  /\ (DB.books db <> [] ->
      DB.load_warnings again = [] /\ DB.disk again = DB.disk db).
Proof.
  intros Hc. cbv zeta.
  destruct (session_state file cs) as (S & E & _ & (added & P) & R).
  cbv zeta in *. specialize (R Hc).
  set (db := run_calls cs (DB.after (DB.init file))) in *.
  destruct (DB.books db) as [|b bs] eqn:Eb.
  - split; [|now intros H].
    rewrite (E eq_refl).
    symmetry in P. apply app_eq_nil in P as [P _].
    exact P.
  - unfold file_in_step in S. rewrite Eb in S.
    rewrite S by discriminate.
    pose proof (init_file_text (b :: bs) R) as I. cbv zeta in I.
    rewrite I. cbn [DB.after DB.books DB.load_warnings DB.disk].
    split; [reflexivity|]. intros _. now split.
Qed.

(** [session_reloads] on a session of two additions, a listing and a
    switch of the validation, on a file of one record and one bad line. *)
Lemma session_reloads_witness :
  let file := Some ("Dune/Frank Herbert/0-441-17271-7/1965" ++ String Py.LF "x/y/z") in
  let cs := [CallAdd "Emma" "Jane Austen" "0-19-953552-3" "1815";
             CallList 1 10; CallToggle;
             CallAdd "Ulysses" "James Joyce" "0-19-953567-1" "1922"] in
  let db := run_calls cs (DB.after (DB.init file)) in
  Forall clean_call cs
  /\ map year (DB.books db) = [1965; 1815; 1922]
  /\ map year (DB.books (DB.after (DB.init (DB.disk db)))) = [1815; 1922; 1965]
  /\ DB.load_warnings (DB.after (DB.init (DB.disk db))) = [].
Proof.
  cbv zeta.
  assert (Forall clean_call
            [CallAdd "Emma" "Jane Austen" "0-19-953552-3" "1815";
             CallList 1 10; CallToggle;
             CallAdd "Ulysses" "James Joyce" "0-19-953567-1" "1922"]) as C.
  { repeat constructor. }
  destruct (session_reloads
              (Some ("Dune/Frank Herbert/0-441-17271-7/1965" ++ String Py.LF "x/y/z"))
              _ C) as (H1 & H2).
  cbv zeta in H1, H2.
  split; [exact C|]. split; [reflexivity|]. split.
  - rewrite H1. reflexivity.
  - apply H2. discriminate.
Defined.

(** ** The switch of the validation *)

(** [toggle_validation] switches the check that [add] makes of the ISBN: a
    record whose ISBN has neither shape is added while the flag is off, is
    refused with the error of the ISBN once the flag was toggled, and a
    second toggle gives back the object of the start. *)
Theorem toggle_switches_isbn_check (db : DB.t) (t a i y : string) (n : Z) :
  DB.validate_isbn db = false ->
  ~ (t = "" \/ a = "" \/ i = "" \/ y = "") ->
  Py.int y = Some n ->
  fst (DB._validate_isbn_format i) = false ->
  let on := DB.after (DB.toggle_validation db) in
  DB.books (DB.after (DB.add t a i y db)) = (DB.books db ++ [mkBook t a i n])%list
  /\ DB.validate_isbn on = true
  /\ DB.add t a i y on = DB.mkOutcome (inr tt) on [ErrInvalidIsbn]
  /\ DB.after (DB.toggle_validation on) = db.
Proof.
  intros Hv Hne Hy Hi. cbv zeta.
  rewrite (add_accepted db t a i y n) by auto.
  rewrite !toggle_outcome.
  cbn [DB.after DB.books DB.disk DB.validate_isbn DB.load_warnings].
  rewrite Hv. cbn [negb].
  split; [reflexivity|]. split; [reflexivity|]. split.
  - now apply (add_bad_isbn _ t a i y n).
  - destruct db as [d b v w]. cbn in *. now subst v.
Qed.

(** [toggle_switches_isbn_check] on an ISBN of three digits. *)
Lemma toggle_switches_isbn_check_witness :
  let db := DB.mk None [] false [] in
  fst (DB._validate_isbn_format "123") = false
  /\ DB.books (DB.after (DB.add "T" "A" "123" "2020" db))
     = [mkBook "T" "A" "123" 2020]
  /\ DB.books (DB.after (DB.add "T" "A" "123" "2020"
                           (DB.after (DB.toggle_validation db)))) = [].
Proof.
  cbv zeta.
  destruct (toggle_switches_isbn_check (DB.mk None [] false [])
              "T" "A" "123" "2020" 2020)
    as (H1 & _ & H3 & _); try reflexivity.
  - intros [H | [H | [H | H]]]; discriminate H.
  - split; [reflexivity|]. split; [exact H1|]. now rewrite H3.
Defined.

(** ** More on the pages of [list] *)












(** ** The loop that shows the pages *)












(** *** A page number as answer *)









(** ** Adding from the answers of the user *)

Lemma add_never_reports_empty (db : DB.t) (t a i y : string) :
  ~ (t = "" \/ a = "" \/ i = "" \/ y = "") ->
  ~ In ErrAllFieldsRequired (DB.printed (DB.add t a i y db)).
Proof.
  intros Hne.
  destruct (Py.int y) as [n|] eqn:Ey.
  - destruct (DB.validate_isbn db) eqn:Ev.
    + destruct (fst (DB._validate_isbn_format i)) eqn:Ei.
      * rewrite (add_accepted db t a i y n) by auto. rewrite Ev. cbn.
        intros [H | [H | []]]; discriminate H.
      * rewrite (add_bad_isbn db t a i y n) by auto. cbn.
        intros [H | []]. discriminate H.
    + rewrite (add_accepted db t a i y n) by auto. rewrite Ev. cbn.
      intros [H | []]. discriminate H.
  - rewrite add_bad_year by assumption. cbn. intros [H | []]. discriminate H.
Qed.

(** [add_book_interactive] stops at the first empty answer: it then names
    the field, puts no further question, does not call [add] and leaves
    the object as it is.  With four answers that are not empty the object
    afterwards and the messages are those of [add].  So the error of [add]
    that all fields are required is never shown from the shell. *)
Theorem interactive_add_checks_first (db : DB.t) (t a i y : string) :
  let r := Shell.add_book_interactive t a i y db in
  ((t = "" \/ a = "" \/ i = "" \/ y = "") ->
   fst r = db
   /\ (forall m, ~ In (Shell.FromDatabase m) (snd r))
   /\ last (snd r) Shell.AddHeader
      = (if DB.is_empty t then Shell.ErrTitleEmpty
         else if DB.is_empty a then Shell.ErrAuthorEmpty
         else if DB.is_empty i then Shell.ErrIsbnEmpty
         else Shell.ErrYearEmpty)
   /\ (t = "" -> ~ In Shell.AskAuthor (snd r))
   /\ (t = "" \/ a = "" -> ~ In Shell.AskIsbn (snd r))
   /\ (t = "" \/ a = "" \/ i = "" -> ~ In Shell.AskYear (snd r)))
  /\ (~ (t = "" \/ a = "" \/ i = "" \/ y = "") ->
      fst r = DB.after (DB.add t a i y db)
      /\ snd r
         = ([Shell.AddHeader; Shell.AskTitle; Shell.AskAuthor; Shell.AskIsbn;
             Shell.AskYear]
              ++ map Shell.FromDatabase (DB.printed (DB.add t a i y db)))%list)
  /\ ~ In (Shell.FromDatabase ErrAllFieldsRequired) (snd r).
Proof.
  cbv zeta. unfold Shell.add_book_interactive.
  destruct t as [|tc tr]; [|destruct a as [|ac ar];
    [|destruct i as [|ic ir]; [|destruct y as [|yc yr]]]];
    cbn [DB.is_empty fst snd last].
  1-4: split; [intros _; repeat split; cbn;
                 try (intros; intuition discriminate)
              |split; [intros H; exfalso; apply H; auto
                      |cbn; intuition discriminate]].
  split; [intros [H | [H | [H | H]]]; discriminate H|].
  split; [intros _; split; reflexivity|].
  intros H. apply in_app_or in H as [H | H].
  - cbn in H. intuition discriminate.
  - apply in_map_iff in H as (m & E & Hm). injection E as ->.
    revert Hm. apply add_never_reports_empty.
    intros [H | [H | [H | H]]]; discriminate H.
Qed.
